(** * BIFFes schedule scripts: extraction, catalog matching and merge

    A shallow embedding of the three scripts under [scripts/]:

    - [extract-feb-schedule.py]: title normalisation, catalog matching,
      assembly of the hand-transcribed day tables and the append-mode merge;
    - [merge-schedule.py]: the replace-mode merge of the per-day files;
    - [parse-schedule-pdf.py]: the upper-cased title lookup and its matcher.

    Python values are modelled as follows.  A [str] is a Rocq [string]; the
    character classes of [str.upper], [str.strip] and of the regular
    expressions [\s] and [\w] are given on the ASCII range, which covers every
    title occurring in the scripts (code points above 127 are left alone by
    [upper_char] and belong to neither class).  A [dict] is an association
    list in insertion order, because the matcher iterates over it.  Exceptions
    are results [Raise e] of a small error monad. *)

From Stdlib Require Import List String Ascii Bool Arith ZArith Lia.
From Stdlib Require Import DecimalString.
Import ListNotations.
Local Open Scope string_scope.
Local Open Scope list_scope.
Local Open Scope nat_scope.

(* ================================================================= *)
(** ** Python strings *)

Module PyStr.

Definition code (c : ascii) : nat := nat_of_ascii c.

(** [str.isspace] on ASCII, which is also the class [\s] of [re] on a
    [str] pattern: TAB, LF, VT, FF, CR, FS, GS, RS, US and SPACE. *)
Definition is_space (c : ascii) : bool :=
  let n := code c in
  ((9 <=? n) && (n <=? 13)) || ((28 <=? n) && (n <=? 32)).

Definition is_lower (c : ascii) : bool :=
  let n := code c in (97 <=? n) && (n <=? 122).

Definition is_upper (c : ascii) : bool :=
  let n := code c in (65 <=? n) && (n <=? 90).

Definition is_digit (c : ascii) : bool :=
  let n := code c in (48 <=? n) && (n <=? 57).

(** The class [\w]: letters, digits and the underscore. *)
Definition is_word (c : ascii) : bool :=
  is_lower c || is_upper c || is_digit c || (code c =? 95).

Definition upper_char (c : ascii) : ascii :=
  if is_lower c then ascii_of_nat (code c - 32) else c.

Definition chars (s : string) : list ascii := list_ascii_of_string s.
Definition str (l : list ascii) : string := string_of_list_ascii l.

Fixpoint drop_space (l : list ascii) : list ascii :=
  match l with
  | c :: r => if is_space c then drop_space r else l
  | [] => []
  end.

(** [s.upper()] *)
Definition upper (l : list ascii) : list ascii := map upper_char l.

(** [s.strip()]: leading whitespace goes, then trailing whitespace. *)
Definition strip (l : list ascii) : list ascii :=
  rev (drop_space (rev (drop_space l))).

(** [re.sub(r'\s+', ' ', s)]: every maximal run of whitespace becomes one
    space.  [in_run] records that the previous character was whitespace,
    that is, that the replacement for the current run is already out. *)
Fixpoint sub_spaces (in_run : bool) (l : list ascii) : list ascii :=
  match l with
  | [] => []
  | c :: r =>
      if is_space c
      then (if in_run then sub_spaces true r else " "%char :: sub_spaces true r)
      else c :: sub_spaces false r
  end.

Definition keeps (c : ascii) : bool := is_word c || is_space c.

(** [re.sub(r'[^\w\s]', '', s)] *)
Definition sub_punct (l : list ascii) : list ascii := filter keeps l.

Fixpoint starts_with (p l : list ascii) : bool :=
  match p, l with
  | [], _ => true
  | _ :: _, [] => false
  | a :: p', b :: l' => Ascii.eqb a b && starts_with p' l'
  end.

(** [p in l] on strings: [p] occurs in [l] as a contiguous block. *)
Fixpoint contains (l p : list ascii) : bool :=
  starts_with p l ||
  match l with
  | [] => false
  | _ :: r => contains r p
  end.

(** [a in b] *)
Definition str_in (a b : string) : bool := contains (chars b) (chars a).

(** *** Shapes of character lists used in the proofs *)

(** A list that does not begin with whitespace. *)
Definition no_lead (l : list ascii) : Prop :=
  match l with
  | [] => True
  | c :: _ => is_space c = false
  end.

(** Neither leading nor trailing whitespace. *)
Definition trimmed (l : list ascii) : Prop := no_lead l /\ no_lead (rev l).

(** Only characters that [sub_punct] keeps. *)
Definition clean (l : list ascii) : Prop := Forall (fun c => keeps c = true) l.

(** Only characters that [upper] leaves as they are. *)
Definition upper_fixed (l : list ascii) : Prop :=
  Forall (fun c => upper_char c = c) l.



End PyStr.

(* ================================================================= *)
(** ** Python dictionaries, values and exceptions *)

Module PyDict.

(** Insertion-ordered dictionary with string keys. *)
Definition dict (V : Type) : Type := list (string * V).

Fixpoint get {V} (d : dict V) (k : string) : option V :=
  match d with
  | [] => None
  | (k', v) :: r => if String.eqb k' k then Some v else get r k
  end.

(** [d[k] = v]: a key already present keeps its place and takes the new
    value; a new key goes to the end. *)
Fixpoint set {V} (d : dict V) (k : string) (v : V) : dict V :=
  match d with
  | [] => [(k, v)]
  | (k', v') :: r =>
      if String.eqb k' k then (k', v) :: r else (k', v') :: set r k v
  end.

Definition keys {V} (d : dict V) : list string := map fst d.

End PyDict.

Inductive exn : Type :=
| AttributeError
| ValueError
| KeyError.

Inductive result (A : Type) : Type :=
| Ok (a : A)
| Raise (e : exn).
Arguments Ok {A} a.
Arguments Raise {A} e.

Definition bind {A B} (r : result A) (k : A -> result B) : result B :=
  match r with
  | Ok a => k a
  | Raise e => Raise e
  end.

Notation "x <- r ;; k" := (bind r (fun x => k))
  (at level 61, r at next level, right associativity).

Fixpoint mapM {A B} (f : A -> result B) (l : list A) : result (list B) :=
  match l with
  | [] => Ok []
  | a :: r => b <- f a ;; bs <- mapM f r ;; Ok (b :: bs)
  end.

(** The values the scripts handle: [None], strings, integers, and the JSON
    arrays and objects that are only passed through. *)
#[local] Unset Elimination Schemes.
Inductive pyval : Type :=
| PNone
| PStr (s : string)
| PInt (z : Z)
| PList (l : list pyval)
| PDict (d : list (string * pyval)).
#[local] Set Elimination Schemes.


(* ================================================================= *)
(** ** The schedule documents (schedule_data.json) *)

(** One showing document, with the keys [convert_to_schedule_format] writes. *)
Record Showing : Type := mkShowing {
  time : pyval;
  film : pyval;
  director : pyval;
  country : pyval;
  year : pyval;
  language : pyval;
  duration : pyval
}.

Record Screening : Type := mkScreening {
  venue : string;
  screen : string;
  showings : list Showing
}.

Record ScheduleDay : Type := mkDay {
  date : string;
  dayNumber : Z;
  label : string;
  screenings : list Screening
}.

(** The store: the metadata object under ["schedule"] (a JSON object, so a
    dictionary) and the list under ["days"]. *)
Record ScheduleStore : Type := mkStore {
  schedule : PyDict.dict pyval;
  days : list ScheduleDay
}.

(** A film of biffes_data.json: its title and the fields nobody reads. *)
Record CatalogFilm : Type := mkFilm {
  title : string;
  fields : PyDict.dict pyval
}.

(* ================================================================= *)
(** ** scripts/extract-feb-schedule.py *)

Module Extract.
Import PyStr.

(** The key of a film in the dictionary [load_films] builds:
    [film['title'].upper().strip()]. *)
Definition db_key (f : CatalogFilm) : string :=
  str (strip (upper (chars (title f)))).

(** The dictionary comprehension of [load_films] stores the films one after
    the other under their keys. *)
Definition load_films (films : list CatalogFilm) : PyDict.dict CatalogFilm :=
  fold_left (fun d f => PyDict.set d (db_key f) f) films [].

Definition normalize_title (title : string) : string :=
  let title := strip (upper (chars title)) in
  let title := sub_spaces false title in
  let title := sub_punct title in
  str title.

(** First loop of [find_film_match]. *)
Fixpoint direct_match (normalized : string)
    (items : list (string * CatalogFilm)) : option CatalogFilm :=
  match items with
  | [] => None
  | (db_title, f) :: rest =>
      if String.eqb (normalize_title db_title) normalized then Some f
      else direct_match normalized rest
  end.

(** Second loop of [find_film_match]. *)
Fixpoint partial_match (normalized : string)
    (items : list (string * CatalogFilm)) : option CatalogFilm :=
  match items with
  | [] => None
  | (db_title, f) :: rest =>
      let db_norm := normalize_title db_title in
      if str_in normalized db_norm || str_in db_norm normalized then Some f
      else partial_match normalized rest
  end.

Definition find_film_match (title : string)
    (films_db : PyDict.dict CatalogFilm) : option CatalogFilm :=
  let normalized := normalize_title title in
  match direct_match normalized films_db with
  | Some f => Some f
  | None => partial_match normalized films_db
  end.

(** [find_film_match] as [main] calls it, on whatever the showing holds
    under ["film"]: only a [str] has [upper]. *)
Definition find_film_match_val (title : pyval)
    (films_db : PyDict.dict CatalogFilm) : result (option CatalogFilm) :=
  match title with
  | PStr s => Ok (find_film_match s films_db)
  | _ => Raise AttributeError
  end.

Definition TIME_SLOTS : PyDict.dict (list string) :=
  [ ("screen", ["10:00"; "12:30"; "14:50"; "17:10"; "19:40"]);
    ("forum", ["11:00"; "15:00"; "18:00"]);
    ("openair", ["19:00"]);
    ("rajkumar", ["10:30"; "14:00"; "17:30"]);
    ("banashankari", ["10:30"; "15:00"; "18:00"]) ].

(** A row of a day table: the 7-tuple
    [(time, film, director, country, year, language, duration)]. *)
Record film_data : Type := Tuple7 {
  t_time : pyval;
  t_film : pyval;
  t_director : pyval;
  t_country : pyval;
  t_year : pyval;
  t_language : pyval;
  t_duration : pyval
}.

(** The rows as the tables write them; the director is [None] for panel
    discussions and masterclasses. *)
Definition row (time film : string) (director : pyval) (country : string)
    (year : Z) (language : string) (duration : Z) : film_data :=
  Tuple7 (PStr time) (PStr film) director (PStr country) (PInt year)
         (PStr language) (PInt duration).

(** What a day table holds under a venue key: under ["cinepolis"] a
    dictionary from screen to rows, under the other venues the rows. *)
Inductive venue_films : Type :=
| Screens (d : PyDict.dict (list film_data))
| Films (l : list film_data).

Definition day_films : Type := PyDict.dict venue_films.

Definition showing_of (t : film_data) : Showing :=
  {| time := t_time t; film := t_film t; director := t_director t;
     country := t_country t; year := t_year t; language := t_language t;
     duration := t_duration t |}.

(** Unpacking a string into seven names gives its seven characters, and
    fails for any other length. *)
Definition unpack_str (k : string) : result film_data :=
  match chars k with
  | [a; b; c; d; e; f; g] =>
      let s x := PStr (String x EmptyString) in
      Ok (Tuple7 (s a) (s b) (s c) (s d) (s e) (s f) (s g))
  | _ => Raise ValueError
  end.

(** [for film_data in day_films[venue]]: the rows of a list, the keys of a
    dictionary. *)
Definition rows_of (v : venue_films) : result (list film_data) :=
  match v with
  | Films l => Ok l
  | Screens d => mapM unpack_str (PyDict.keys d)
  end.

(** The cinepolis block: one Screening per screen of the table, appended
    without looking at its showings; a list has no [items]. *)
Definition cinepolis_block (tbl : day_films) (screenings : list Screening)
    : result (list Screening) :=
  match PyDict.get tbl "cinepolis" with
  | None => Ok screenings
  | Some (Films _) => Raise AttributeError
  | Some (Screens d) =>
      Ok (fold_left
            (fun acc item =>
               acc ++ [ {| venue := "cinepolis"; screen := fst item;
                           showings := map showing_of (snd item) |} ])
            d screenings)
  end.

(** One turn of the loop over the other venues. *)
Definition venue_step (tbl : day_films) (screenings : list Screening)
    (v : string) : result (list Screening) :=
  match PyDict.get tbl v with
  | None => Ok screenings
  | Some content =>
      rows <- rows_of content ;;
      match map showing_of rows with
      | [] => Ok screenings
      | shs =>
          Ok (screenings ++
              [ {| venue := if String.eqb v "forum" then "cinepolis" else v;
                   screen := if String.eqb v "forum" then "Open Forum" else "1";
                   showings := shs |} ])
      end
  end.

Fixpoint foldM {A B} (f : A -> B -> result A) (l : list B) (a : A) : result A :=
  match l with
  | [] => Ok a
  | b :: r => a' <- f a b ;; foldM f r a'
  end.

Definition OTHER_VENUES : list string :=
  ["rajkumar"; "banashankari"; "openair"; "forum"].

Definition convert_to_schedule_format (tbl : day_films) (date : string)
    (day_number : Z) (label : string) : result ScheduleDay :=
  screenings <- cinepolis_block tbl [] ;;
  screenings <- foldM (venue_step tbl) OTHER_VENUES screenings ;;
  Ok {| date := date; dayNumber := day_number; label := label;
        screenings := screenings |}.

(** *** The hand-transcribed day tables (pages 6 to 9 of the PDF) *)

Local Open Scope Z_scope.

Definition FEB_3_FILMS : day_films :=
  [
    ("cinepolis", Screens [
      ("1",
       [ row "10:00" "MAHAKAVI" (PStr "Baragur Ramachandrappa") "India" 2025 "Kannada" 121;
         row "12:30" "SHAPE OF MOMO" (PStr "Tribeny Rai") "India" 2025 "Nepali" 115;
         row "14:50" "INVISIBLE TALES" (PStr "Mehdi Fard Ghaderi") "Iran" 2025 "Farsi" 100;
         row "17:10" "THE LOVE THAT REMAINS" (PStr "Hlynur Palmason") "Iceland" 2025 "Icelandic" 109;
         row "19:40" "MAN OF MARBLE" (PStr "Andrzej Wajda") "Poland" 1977 "Polish" 165 ]);
      ("2",
       [ row "10:00" "OUT OF LOVE" (PStr "Nathan Ambrosioni") "France" 2025 "French" 111;
         row "12:30" "DRAGONFLY" (PStr "Paul Andrew Williams") "United Kingdom" 2025 "English" 98;
         row "14:50" "BEFORE THE BODY" (PStr "Lucia Bracelis, Carina Piazza") "Argentina" 2025 "Spanish" 84;
         row "17:10" "THE LAST SUMMER" (PStr "Shi Refei") "China" 2025 "Mandarin Chinese" 90;
         row "19:40" "NATIONAL IMMIGRE" (PStr "Sidney Sokhona") "France" 1976 "French" 85 ]);
      ("3",
       [ row "10:00" "BLUE MOON" (PStr "Richard Linklater") "United States" 2025 "English" 100;
         row "12:30" "SLEEPLESS CITY" (PStr "Guillermo Galoe") "Spain" 2025 "Spanish" 97;
         row "14:50" "HALF MOON" (PStr "Frank Scheffer") "Netherlands" 2025 "English" 92;
         row "17:10" "THE GREAT ARCH" (PStr "Stephane Demoustier") "France" 2025 "French" 106;
         row "19:40" "ON THE SILVER GLOBE" (PStr "Andrzej Zulawski") "Poland" 1988 "Polish" 166 ]);
      ("4",
       [ row "10:00" "COMANDANTE FRITZ" (PStr "Pavel Giroud") "Germany" 2025 "German" 107;
         row "12:30" "RUDAALI" (PStr "Kalpana Lajmi") "India" 1993 "Hindi" 128;
         row "14:50" "DIVINE COMEDY" (PStr "Ali Asgari") "Iran" 2025 "Persian" 96;
         row "17:10" "DJ AHMET" (PStr "Georgi M. Unkovski") "Macedonia" 2025 "Turkish" 99;
         row "19:40" "INNOCENT SORCERERS" (PStr "Andrzej Wajda") "Poland" 1960 "Polish" 87 ]);
      ("5",
       [ row "10:00" "ORENDA" (PStr "Pirjo Honkasalo") "Finland" 2025 "Finnish" 119;
         row "12:30" "KURAK" (PStr "Rke Dzhumaki") "Kyrgyzstan" 2025 "Kyrgyz" 89;
         row "14:50" "MOHAM" (PStr "Fazil Razak") "India" 2025 "Malayalam" 102;
         row "17:10" "GAMAN" (PStr "Manoj Madhukar Naiksatam") "India" 2025 "Marathi" 105;
         row "19:40" "BHAKTA KANAKADASA" (PStr "Y. R. Swamy") "India" 1960 "Kannada" 127 ]);
      ("6",
       [ row "10:00" "SONGS OF FORGOTTEN TREES" (PStr "Anuparna Roy") "India" 2025 "Hindi" 80;
         row "12:30" "WHAT DOES THAT NATURE SAY TO YOU" (PStr "Hong Sang-Soo") "South Korea" 2025 "Korean" 109;
         row "14:50" "CLOISTERED SISTER" (PStr "Ivana Mladenovic") "Romania" 2025 "Romanian" 107;
         row "17:10" "A CONVERSATION WITH JAYANT KAIKINI" PNone "India" 2025 "English" 90 ]);
      ("7",
       [ row "10:00" "BIDAD" (PStr "Soheil Beiraghi") "Iran" 2025 "Iranian" 104;
         row "12:30" "THE DREAMED ONES" (PStr "Ruth Beckermann") "Austria" 2016 "German" 89;
         row "14:50" "UNDER THE VOLCANO" (PStr "Damian Kocur") "Poland" 2024 "Ukrainian" 105;
         row "17:10" "KHIDKI GAAV" (PStr "Sanju Surendran") "India" 2025 "Malayalam" 100 ]);
      ("8",
       [ row "10:00" "YOUNG MOTHERS" (PStr "Jean-Pierre Dardenne, Luc Dardenne") "France" 2025 "French" 106;
         row "12:30" "LATE SHIFT" (PStr "Petra Biondina Volpe") "Switzerland" 2025 "Swiss-German" 92;
         row "14:50" "FATHER MOTHER SISTER BROTHER" (PStr "Jim Jarmusch") "USA" 2025 "English" 110;
         row "17:10" "OSLO: A TAIL OF PROMISE" (PStr "Isha Pungaliya") "India" 2025 "Hindi" 93;
         row "19:40" "JEVANN" (PStr "Akshay Nayak") "India" 2025 "Konkani" 117 ]) ]);
    ("rajkumar", Films
       [ row "10:30" "TUG OF WAR" (PStr "Amil Shivji") "Tanzania" 2021 "Swahili" 92;
         row "14:00" "CHIDAMBARAM" (PStr "Govindan Aravindan") "India" 1985 "Malayalam" 100;
         row "17:30" "THE NATURE OF INVISIBLE THINGS" (PStr "Rafaela Camelo") "Brazil" 2025 "Portuguese" 90 ]);
    ("banashankari", Films
       [ row "10:30" "THE LITTLE GIRL WHO SOLD THE SUN" (PStr "Djibril Diop Mambety") "Senegal" 1999 "Wolof" 45;
         row "11:15" "LE FRANC" (PStr "Djibril Diop Mambety") "Senegal" 1994 "Wolof" 45;
         row "15:00" "MAHAKAVI" (PStr "Baragur Ramachandrappa") "India" 2025 "Kannada" 121;
         row "18:00" "GONDHAL" (PStr "Santosh Davakhar") "India" 2025 "Marathi" 120 ]);
    ("openair", Films
       [ row "19:00" "AMMANG HELBEDA" (PStr "Anoop Lokkur") "India" 2025 "Kannada" 90 ]) ].

Definition FEB_4_FILMS : day_films :=
  [
    ("cinepolis", Screens [
      ("1",
       [ row "10:00" "MALAVAZHI" (PStr "Boban Govindan") "India" 2025 "Malayalam" 91;
         row "12:30" "ELUMALE" (PStr "Punit Rangaswamy") "India" 2025 "Kannada" 133;
         row "14:50" "SOUND OF FALLING" (PStr "Mascha Schilinski") "Germany" 2025 "German" 149;
         row "17:10" "KRAURYA" (PStr "Girish Kasaravalli") "India" 1995 "Kannada" 120;
         row "19:40" "THE PRESIDENT'S CAKE" (PStr "Hasan Hadi") "Iraq" 2025 "Arabic" 105 ]);
      ("2",
       [ row "10:00" "BAKSHO BONDI" (PStr "Tanushree Das, Saumyananda Sahi") "India" 2025 "Bengali" 93;
         row "12:30" "INVISIBLES" (PStr "Junna Chif") "Canada" 2025 "English" 94;
         row "14:50" "TALES OF THE WOUNDED LAND" (PStr "Abbas Fahdel") "Lebanon" 2025 "Arabic" 120;
         row "17:10" "CEMETERY OF SPLENDOUR" (PStr "Apichatpong Weerasethakul") "Thailand" 2015 "Thai" 122;
         row "19:40" "LITTLE TROUBLE GIRLS" (PStr "Urska Djukic") "Slovenia" 2025 "Slovenian" 89 ]);
      ("3",
       [ row "10:00" "GHARDEV" (PStr "HD Jeevan") "India" 2025 "Banjara" 115;
         row "12:30" "BEFORE THE BODY" (PStr "Lucia Bracelis, Carina Piazza") "Argentina" 2025 "Spanish" 84;
         row "14:50" "CALLE MALAGA" (PStr "Maryam Touzani") "Spain" 2025 "Spanish" 116;
         row "17:10" "ACCIDENT" (PStr "Shankar Nag") "India" 1984 "Kannada" 107;
         row "19:40" "SHANKAR GURU" (PStr "V. Somasekhar") "India" 1978 "Kannada" 179 ]);
      ("4",
       [ row "10:00" "KY NAM INN" (PStr "Leon Le") "Vietnam" 2025 "Vietnamese" 140;
         row "12:30" "NO OTHER CHOICE" (PStr "Park Chan-Wook") "South Korea" 2025 "Korean" 139;
         row "14:50" "LAPTEIN" (PStr "Ravi Shankar Kaushik") "India" 2025 "Hindi" 86;
         row "17:10" "DO BIGHA ZAMIN" (PStr "Bimal Roy") "India" 1953 "Hindi" 131;
         row "19:40" "SANDHYA RAAGA" (PStr "A.C Narasimha Murthy") "India" 1966 "Kannada" 153 ]);
      ("5",
       [ row "10:00" "VERTICAL FILMMAKING DISCUSSION" PNone "India" 2025 "English" 90;
         row "14:50" "THAAY! SAHEBA" (PStr "Girish Kasaravalli") "India" 1997 "Kannada" 117;
         row "17:10" "PADUVARAHALLI PANDAVARU" (PStr "Puttanna Kanagal") "India" 1978 "Kannada" 146;
         row "19:40" "AMARA SHILPI JAKANACHARI" (PStr "B. S. Ranga") "India" 1964 "Kannada" 126 ]);
      ("6",
       [ row "14:50" "APICHATPONG WEERASETHAKUL MASTERCLASS" PNone "Thailand" 2025 "English" 90 ]) ]);
    ("rajkumar", Films
       [ row "10:30" "THE LITTLE GIRL WHO SOLD THE SUN" (PStr "Djibril Diop Mambety") "Senegal" 1999 "Wolof" 45;
         row "11:15" "LE FRANC" (PStr "Djibril Diop Mambety") "Senegal" 1994 "Wolof" 45;
         row "14:00" "MAHAKAVI" (PStr "Baragur Ramachandrappa") "India" 2025 "Kannada" 121;
         row "17:30" "GONDHAL" (PStr "Santosh Davakhar") "India" 2025 "Marathi" 120 ]);
    ("banashankari", Films
       [ row "10:30" "AMMANG HELBEDA" (PStr "Anoop Lokkur") "India" 2025 "Kannada" 90;
         row "15:00" "KRAURYA" (PStr "Girish Kasaravalli") "India" 1995 "Kannada" 120;
         row "18:00" "BHOOTHALAM" (PStr "Sreekanth Pangapattu") "India" 2025 "Malayalam" 85 ]);
    ("openair", Films
       [ row "19:00" "APICHATPONG RETROSPECTIVE" (PStr "Apichatpong Weerasethakul") "Thailand" 2010 "Thai" 113 ]) ].

Definition FEB_5_FILMS : day_films :=
  [
    ("cinepolis", Screens [
      ("1",
       [ row "10:00" "MIRCH MASALA" (PStr "Ketan Mehta") "India" 1987 "Hindi" 128;
         row "12:30" "A LIGHT THAT NEVER GOES OUT" (PStr "Lauri Matti Parppei") "Norway" 2025 "Finnish" 108;
         row "14:50" "LOVE ME TENDER" (PStr "Anna Cazenave Cambet") "France" 2025 "French" 134;
         row "17:10" "ON THE SILVER GLOBE" (PStr "Andrzej Zulawski") "Poland" 1988 "Polish" 166;
         row "19:40" "JEEVANA CHAITRA" (PStr "Dorai-Bhagavan") "India" 1992 "Kannada" 157 ]);
      ("2",
       [ row "10:00" "RENOVATION" (PStr "Gabriele Urbonante") "Lithuania" 2025 "Lithuanian" 95;
         row "12:30" "SUNDAYS" (PStr "Alauda Ruiz de Azua") "Spain" 2025 "Spanish" 117;
         row "14:50" "MORTICIAN" (PStr "Abdolreza Kahani") "Canada" 2025 "Persian" 94;
         row "17:10" "DOORA THEERA YAANA" (PStr "Mansore") "India" 2025 "Kannada" 131;
         row "19:40" "FRANZ" (PStr "Agnieszka Holland") "Poland" 2025 "Czech" 127 ]);
      ("3",
       [ row "10:00" "BEFORE THE BODY" (PStr "Lucia Bracelis, Carina Piazza") "Argentina" 2025 "Spanish" 84;
         row "12:30" "EIRAWY" (PStr "Sarah Goher") "Egypt" 2025 "Arabic" 95;
         row "14:50" "K POPPER" (PStr "Ebrahim Amini") "Iran" 2025 "Farsi" 83;
         row "17:10" "VAGHACHIPANI" (PStr "Natesh Hegde") "India" 2025 "Kannada" 87;
         row "19:40" "THEATRE" (PStr "Nishanth Kalidindi") "India" 2025 "Tamil" 93 ]);
      ("4",
       [ row "10:00" "FOLLIES" (PStr "Eric K") "Canada" 2025 "French" 104;
         row "12:30" "A USEFUL GHOST" (PStr "Ratchapoom Boonbunchachoke") "Thailand" 2025 "Thai" 130;
         row "14:50" "WHAT DOES THAT NATURE SAY TO YOU" (PStr "Hong Sang-Soo") "South Korea" 2025 "Korean" 109;
         row "17:10" "JAI" (PStr "Roopesh Shetty") "India" 2025 "Tulu" 165;
         row "19:40" "THE PROMISED LAND" (PStr "Andrzej Wajda") "Poland" 1975 "Polish" 180 ]);
      ("5",
       [ row "10:00" "BEACHCOMBER" (PStr "Aristotelis Maragkos") "Greece" 2025 "Greek" 92;
         row "12:30" "LOST LAND" (PStr "Akio Fujimoto") "Japan" 2025 "Rohingya" 99;
         row "14:50" "NAM SAALI" (PStr "Aneel Kumar") "India" 2025 "Kannada" 90;
         row "17:10" "AMRUM" (PStr "Fatih Akin") "Germany" 2025 "German" 93;
         row "19:40" "BAL POUSSIERE" (PStr "Henri Duparc") "Ivory Coast" 1989 "French" 93 ]);
      ("6",
       [ row "10:00" "CARAVAN" (PStr "Zuzana Kirchnerova-Spidlova") "Czechia" 2025 "Czech" 102;
         row "12:30" "IT WAS JUST AN ACCIDENT" (PStr "Jafar Panahi") "Iran" 2025 "Iranian" 106;
         row "14:50" "FIUME O MORTE!" (PStr "Igor Bezinovic") "Croatia" 2025 "Croatian" 112;
         row "17:10" "SARKEET" (PStr "Thamar Mon Karuvanta Valappil") "India" 2025 "Malayalam" 125;
         row "19:40" "DR. RAJKUMAR HERO OF SUBALTERNS DISCUSSION" PNone "India" 2025 "English" 90 ]);
      ("7",
       [ row "10:00" "SABAR BONDA" (PStr "Rohan Parashuram Kanawade") "India" 2025 "Marathi" 117;
         row "12:30" "FULL PLATE" (PStr "Tannishtha Chatterjee") "India" 2025 "Hindi" 109;
         row "14:50" "SENTIMENTAL VALUE" (PStr "Joachim Trier") "Norway" 2025 "Norwegian" 135;
         row "17:10" "AMOEBA" (PStr "Tan Siyou") "Singapore" 2025 "English" 98;
         row "19:40" "REPUBLIC OF PIPOLIPINAS" (PStr "Renei Dimla") "Philippines" 2025 "Tagalog" 105 ]);
      ("8",
       [ row "10:00" "CASE 137" (PStr "Dominik Moll") "France" 2025 "French" 122;
         row "12:30" "SILENT FRIEND" (PStr "Ildiko Enyedi") "Germany" 2025 "German" 147;
         row "14:50" "THE DISAPPEARANCE OF JOSEF MENGELE" (PStr "Kirill Serebrennikov") "Germany" 2025 "German" 135;
         row "17:10" "THE PORTUGUESE HOUSE" (PStr "Avelina Prat") "Spain" 2025 "Spanish" 114;
         row "19:40" "DRY LEAF" (PStr "Alexandre Koberidze") "Georgia" 2025 "Georgian" 186 ]) ]);
    ("rajkumar", Films
       [ row "10:30" "NADUBETTU APPANNA" (PStr "Anupama Sharadhi") "India" 2025 "Are Bhashe" 92;
         row "14:00" "BHUMIKA" (PStr "Shyam Benegal") "India" 1977 "Hindi" 142;
         row "17:30" "JEEV" (PStr "Ravindra Manik Jadhav") "India" 2025 "Marathi" 103 ]);
    ("banashankari", Films
       [ row "10:30" "HAKKIGHAGI" (PStr "Garghee Karehaiklu") "India" 2025 "Kannada" 122;
         row "15:00" "KANASEMBA KUDUREYANERI" (PStr "Girish Kasaravalli") "India" 2010 "Kannada" 104;
         row "18:00" "TWENTY YEARS OF AFRICAN CINEMA" (PStr "Ferid Boughedir") "Tunisia" 1983 "French" 95 ]);
    ("openair", Films
       [ row "19:00" "RIVERSTONE" (PStr "Lalith Rathnayake") "Sri Lanka" 2025 "Sinhala" 120 ]);
    ("forum", Films
       [ row "11:00" "FIPRESCI AT 100 PANEL DISCUSSION" PNone "India" 2025 "English" 120;
         row "15:00" "SATYA HARISHCHANDRA" (PStr "Trupthulaaan") "India" 2025 "Kannada" 90;
         row "18:00" "WOMEN SHAPING CINEMA PANEL" PNone "India" 2025 "English" 90 ]) ].

Definition FEB_6_FILMS : day_films :=
  [
    ("cinepolis", Screens [
      ("1",
       [ row "10:00" "MY UNCLE JENS" (PStr "Brwa Vahabpour") "Norway" 2025 "Norwegian" 98;
         row "12:30" "WIND, TALK TO ME" (PStr "Stefan Dordevic") "Serbia" 2025 "Serbian" 100;
         row "14:50" "GOD WILL NOT HELP" (PStr "Hana Jusic") "Croatia" 2025 "Croatian" 137;
         row "17:10" "CHOPIN, A SONATA IN PARIS" (PStr "Michal Kwiecinski") "Poland" 2025 "Polish" 133;
         row "19:40" "MAN OF MARBLE" (PStr "Andrzej Wajda") "Poland" 1977 "Polish" 165 ]);
      ("2",
       [ row "10:00" "INVISIBLES" (PStr "Junna Chif") "Canada" 2025 "English" 94;
         row "12:30" "MAYSOON" (PStr "Nancy Biniadaki") "Germany" 2025 "German" 120;
         row "14:50" "FATHER" (PStr "Tereza Nvotova") "Slovakia" 2025 "Slovak" 103;
         row "17:10" "THE GREAT ARCH" (PStr "Stephane Demoustier") "France" 2025 "French" 106;
         row "19:40" "AFTERIMAGE" (PStr "Andrzej Wajda") "Poland" 2016 "Polish" 98 ]);
      ("3",
       [ row "10:00" "REEDLAND" (PStr "Sven Bresser") "Netherlands" 2025 "Dutch" 111;
         row "12:30" "HUMAN RESOURCE" (PStr "Nawapol Thamrongrattanarit") "Thailand" 2025 "Thai" 122;
         row "14:50" "MARK" (PStr "Vijay Kartikeyaa") "India" 2025 "Kannada" 144;
         row "17:10" "TUG OF WAR" (PStr "Amil Shivji") "Tanzania" 2021 "Swahili" 92;
         row "19:40" "THE HOURGLASS SANATORIUM" (PStr "Wojciech Jerzy Has") "Poland" 1973 "Polish" 125 ]);
      ("4",
       [ row "10:00" "DRAGONFLY" (PStr "Paul Andrew Williams") "United Kingdom" 2025 "English" 98;
         row "12:30" "COMANDANTE FRITZ" (PStr "Pavel Giroud") "Germany" 2025 "German" 107;
         row "14:50" "SECRET OF A MOUNTAIN SERPENT" (PStr "Nidhi Saxena") "India" 2025 "Hindi" 108;
         row "17:10" "CLEO FROM 5 TO 7" (PStr "Agnes Varda") "France" 1962 "French" 90;
         row "19:40" "OUT OF LOVE" (PStr "Nathan Ambrosioni") "France" 2025 "French" 111 ]);
      ("5",
       [ row "10:00" "DIVINE COMEDY" (PStr "Ali Asgari") "Iran" 2025 "Persian" 96;
         row "12:30" "GONDHAL" (PStr "Santosh Davakhar") "India" 2025 "Marathi" 120;
         row "14:50" "KIDKI GAAV" (PStr "Sanju Surendran") "India" 2025 "Malayalam" 100;
         row "17:10" "WHITE SNOW" (PStr "Praveen Morchhale") "India" 2025 "Urdu" 82;
         row "19:40" "AMMANG HELBEDA" (PStr "Anoop Lokkur") "India" 2025 "Kannada" 90 ]);
      ("6",
       [ row "10:00" "KRAURYA" (PStr "Girish Kasaravalli") "India" 1995 "Kannada" 120;
         row "12:30" "AMOEBA" (PStr "Tan Siyou") "Singapore" 2025 "English" 98;
         row "14:50" "SKIN OF YOUTH" (PStr "Ash Mayfair") "Vietnam" 2025 "Vietnamese" 122;
         row "17:10" "BILI CHUKKI HALLI HAKKI" (PStr "Mahesh Chandregowda") "India" 2025 "Kannada" 138;
         row "19:40" "SHANKAR GURU" (PStr "V. Somasekhar") "India" 1978 "Kannada" 179 ]);
      ("7",
       [ row "10:00" "THE MASTERMIND" (PStr "Kelly Reichardt") "USA" 2025 "English" 110;
         row "12:30" "THE FIN" (PStr "Syeyoung Park") "South Korea" 2025 "Korean" 85;
         row "14:50" "GANARAAG" (PStr "Dip Bhuyan") "India" 2025 "Assamese" 102;
         row "17:10" "YOUNG MOTHERS" (PStr "Jean-Pierre Dardenne, Luc Dardenne") "France" 2025 "French" 106;
         row "19:40" "LITTLE TROUBLE GIRLS" (PStr "Urska Djukic") "Slovenia" 2025 "Slovenian" 89 ]);
      ("8",
       [ row "10:00" "GOLEM" (PStr "Piotr Szulkin") "Poland" 1979 "Polish" 93;
         row "12:30" "UMMATHAT - THE RHYTHM OF KODAVA" (PStr "Prakash Kariappa Kottukathira") "India" 2025 "Kodava" 49;
         row "14:50" "ANMOL - LOVINGLY OURS" (PStr "Priyankka Saha") "India" 2025 "Hindi" 99 ]) ]);
    ("rajkumar", Films
       [ row "10:30" "GHARDEV" (PStr "HD Jeevan") "India" 2025 "Banjara" 115;
         row "14:00" "HEMAVATHI" (PStr "S. Siddalingaiah") "India" 1977 "Kannada" 140 ]);
    ("banashankari", Films
       [ row "10:30" "SERENG" (PStr "NPK") "India" 2025 "Nagpuri" 120;
         row "15:00" "THE TABLET" (PStr "Aravind Siva") "India" 2025 "Tamil" 79;
         row "18:00" "PHOUOIBEE" (PStr "Rakesh Moirangthem") "India" 2025 "Manipuri" 89 ]);
    ("openair", Films
       [ row "19:00" "MEMORIA" (PStr "Apichatpong Weerasethakul") "Thailand" 2021 "English" 136 ]) ].

Local Close Scope Z_scope.

(** *** main *)

(** The four calls of [convert_to_schedule_format] in [main]. *)
Definition NEW_DAYS : list (day_films * string * Z * string) :=
  [ (FEB_3_FILMS, "2026-02-03", 5%Z, "Day 5 - Tuesday");
    (FEB_4_FILMS, "2026-02-04", 6%Z, "Day 6 - Wednesday");
    (FEB_5_FILMS, "2026-02-05", 7%Z, "Day 7 - Thursday");
    (FEB_6_FILMS, "2026-02-06", 8%Z, "Day 8 - Friday") ].

Definition assemble (tables : list (day_films * string * Z * string))
    : result (list ScheduleDay) :=
  mapM (fun t => match t with
                 | (tbl, d, n, l) => convert_to_schedule_format tbl d n l
                 end) tables.

(** [schedule_data["days"].extend(new_days)] and the two assignments into
    [schedule_data["schedule"]]. *)
Definition add_to_schedule (schedule_data : ScheduleStore)
    (new_days : list ScheduleDay) : ScheduleStore :=
  let meta := schedule schedule_data in
  let meta := PyDict.set meta "lastUpdated" (PStr "2026-01-29T12:00:00.000Z") in
  let meta := PyDict.set meta "source"
                (PStr "film schedule curve (29th Jan) - 12 pages.pdf") in
  {| schedule := meta; days := days schedule_data ++ new_days |}.

(** The counters of the verification loop. *)
Record Summary : Type := mkSummary {
  total_showings : nat;
  matched : nat;
  unmatched : list pyval
}.

(** The body of the innermost loop: a film found is any film (a film object
    has a title, so it is never falsy). *)
Definition count_showing (films_db : PyDict.dict CatalogFilm) (acc : Summary)
    (showing : Showing) : result Summary :=
  let total := S (total_showings acc) in
  let film_title := film showing in
  found <- find_film_match_val film_title films_db ;;
  match found with
  | Some _ => Ok (mkSummary total (S (matched acc)) (unmatched acc))
  | None => Ok (mkSummary total (matched acc) (unmatched acc ++ [film_title]))
  end.

Definition count_films (films_db : PyDict.dict CatalogFilm)
    (new_days : list ScheduleDay) : result Summary :=
  foldM (fun acc day =>
           foldM (fun acc screening =>
                    foldM (count_showing films_db) (showings screening) acc)
                 (screenings day) acc)
        new_days (mkSummary 0 0 []).

(** [main], for any list of day tables in place of the four of the script:
    the result is the store [json.dump] writes and the counters the summary
    prints; an exception leaves the file as it was. *)
Definition main_on (tables : list (day_films * string * Z * string))
    (schedule_data : ScheduleStore) (films : list CatalogFilm)
    : result (ScheduleStore * Summary) :=
  let films_db := load_films films in
  new_days <- assemble tables ;;
  let schedule_data := add_to_schedule schedule_data new_days in
  summary <- count_films films_db new_days ;;
  Ok (schedule_data, summary).

Definition main : ScheduleStore -> list CatalogFilm
    -> result (ScheduleStore * Summary) :=
  main_on NEW_DAYS.

(** *** Notions used to state the properties *)

(** [load_films] from a dictionary already begun. *)
Definition store_films (d : PyDict.dict CatalogFilm) (films : list CatalogFilm)
    : PyDict.dict CatalogFilm :=
  fold_left (fun d f => PyDict.set d (db_key f) f) films d.

Definition KNOWN_VENUES : list string := "cinepolis" :: OTHER_VENUES.

Definition known_venue (k : string) : bool :=
  existsb (String.eqb k) KNOWN_VENUES.

(** A day table without the keys the assembler never asks for. *)
Definition known_part (tbl : day_films) : day_films :=
  filter (fun item => known_venue (fst item)) tbl.

(** The Screening the cinepolis block makes of one screen of the table. *)
Definition cinepolis_screening (item : string * list film_data) : Screening :=
  {| venue := "cinepolis"; screen := fst item;
     showings := map showing_of (snd item) |}.

(** The Screening one of the other venues gets. *)
Definition venue_screening (v : string) (rows : list film_data) : Screening :=
  {| venue := if String.eqb v "forum" then "cinepolis" else v;
     screen := if String.eqb v "forum" then "Open Forum" else "1";
     showings := map showing_of rows |}.

(** A day table in the shape of the tables of the script: screens under
    ["cinepolis"], rows under the other venues. *)
Definition well_shaped (tbl : day_films) : bool :=
  match PyDict.get tbl "cinepolis" with
  | Some (Films _) => false
  | _ => true
  end &&
  forallb (fun v => match PyDict.get tbl v with
                    | Some (Screens _) => false
                    | _ => true
                    end) OTHER_VENUES.

(** The rule of the specification for a screen with a slot table: the Nth
    showing sits at the Nth slot. *)
Definition slot_rule (slots : list string) (shs : list Showing) : Prop :=
  forall n sh, nth_error shs n = Some sh ->
    exists slot, nth_error slots n = Some slot /\ time sh = PStr slot.

(** The showing has a title, that is, a string under ["film"]. *)
Definition titled (sh : Showing) : bool :=
  match film sh with
  | PStr _ => true
  | _ => false
  end.

Definition all_titled (new_days : list ScheduleDay) : bool :=
  forallb (fun day => forallb (fun sc => forallb titled (showings sc))
                              (screenings day)) new_days.

Definition showing_count (new_days : list ScheduleDay) : nat :=
  list_sum (map (fun day => list_sum (map (fun sc => List.length (showings sc))
                                         (screenings day))) new_days).

(** [acc'] counts [k] showings more than [acc], each of them either as
    matched or as unmatched. *)
Definition counted (k : nat) (acc acc' : Summary) : Prop :=
  total_showings acc' = total_showings acc + k /\
  matched acc' + List.length (unmatched acc')
    = matched acc + List.length (unmatched acc) + k.

(** The normalised title and the normalised key are related by containment,
    one way or the other: the test of the second loop of the matcher. *)
Definition related (normalized db_title : string) : bool :=
  str_in normalized (normalize_title db_title)
  || str_in (normalize_title db_title) normalized.

(** The Screenings of the cinepolis block, and the Screening of another
    venue, on a table of the script's shape. *)
Definition cinepolis_part (tbl : day_films) : list Screening :=
  match PyDict.get tbl "cinepolis" with
  | Some (Screens d) => map cinepolis_screening d
  | _ => []
  end.

Definition venue_part (tbl : day_films) (v : string) : list Screening :=
  match PyDict.get tbl v with
  | Some (Films (r :: rows)) => [venue_screening v (r :: rows)]
  | _ => []
  end.

(** The rows of a table the assembler reads, in the order it reads them. *)
Definition table_rows (tbl : day_films) : list film_data :=
  match PyDict.get tbl "cinepolis" with
  | Some (Screens d) => flat_map snd d
  | _ => []
  end ++
  flat_map (fun v => match PyDict.get tbl v with
                     | Some (Films rows) => rows
                     | _ => []
                     end) OTHER_VENUES.

(** The titles of the showings, in the order the loop of [main] visits. *)
Definition day_titles (new_days : list ScheduleDay) : list pyval :=
  flat_map (fun day => flat_map (fun sc => map film (showings sc))
                                (screenings day)) new_days.

(** The matcher finds a film for the title. *)
Definition in_catalog (films_db : PyDict.dict CatalogFilm) (t : pyval) : bool :=
  match t with
  | PStr s => match find_film_match s films_db with
              | Some _ => true
              | None => false
              end
  | _ => false
  end.

(** The counters after the titles [ts] were counted on top of [acc]. *)
Definition tallied (films_db : PyDict.dict CatalogFilm) (acc : Summary)
    (ts : list pyval) : Summary :=
  mkSummary (total_showings acc + List.length ts)
            (matched acc + List.length (filter (in_catalog films_db) ts))
            (unmatched acc ++ filter (fun t => negb (in_catalog films_db t)) ts).

(** The four days [main] assembles from its tables. *)
Definition FEB_DAYS : list ScheduleDay :=
  match assemble NEW_DAYS with
  | Ok new_days => new_days
  | Raise _ => []
  end.

End Extract.

(* ================================================================= *)
(** ** scripts/merge-schedule.py *)

Module Merge.

(** [str(n)] for a natural number. *)
Definition str_of_nat (n : nat) : string :=
  NilZero.string_of_uint (Nat.to_uint n).

Definition day_file_name (day_num : nat) : string :=
  "day" ++ str_of_nat day_num ++ "-" ++
  (if day_num =? 1 then "jan30"
   else if day_num =? 2 then "jan31"
   else "feb0" ++ str_of_nat (day_num - 2)) ++ ".json".

(** The directory [schedule-extracted]: the day document of each file that
    exists there. *)
Definition directory : Type := string -> option ScheduleDay.

(** The loop over [range(1, 9)]. *)
Definition load_days (extracted_dir : directory) : list ScheduleDay :=
  fold_left
    (fun days day_num =>
       match extracted_dir (day_file_name day_num) with
       | Some day_data => days ++ [day_data]
       | None => days
       end)
    (seq 1 8) [].

Definition count_showings (days : list ScheduleDay) : nat :=
  fold_left
    (fun total day =>
       fold_left (fun total screening => total + List.length (showings screening))
                 (screenings day) total)
    days 0.

(** [main]: the store written and the total printed; [existing] is the
    store read at the start. *)
Definition main (existing : ScheduleStore) (extracted_dir : directory)
    : result (ScheduleStore * nat) :=
  let days := load_days extracted_dir in
  match PyDict.get (schedule existing) "venues" with
  | None => Raise KeyError
  | Some venues =>
      let schedule_data :=
        {| schedule :=
             [ ("lastUpdated", PStr "2026-01-30T12:00:00.000Z");
               ("source", PStr "film schedule curve (29th Jan) - 12 pages.pdf (Image extracted)");
               ("note", PStr "Schedule extracted directly from PDF images. Verified against official schedule.");
               ("venues", venues) ];
           days := days |} in
      Ok (schedule_data, count_showings days)
  end.

(** The names of the eight day files, in the order of the loop. *)
Definition DAY_FILES : list string :=
  [ "day1-jan30.json"; "day2-jan31.json"; "day3-feb01.json";
    "day4-feb02.json"; "day5-feb03.json"; "day6-feb04.json";
    "day7-feb05.json"; "day8-feb06.json" ].

End Merge.

(* ================================================================= *)
(** ** scripts/parse-schedule-pdf.py *)

Module ParsePdf.
Import PyStr.

(** The loop that fills the global [film_lookup]. *)
Definition film_lookup (films : list CatalogFilm) : PyDict.dict CatalogFilm :=
  fold_left
    (fun d f =>
       let d := PyDict.set d (str (upper (chars (title f)))) f in
       let clean_title := str (sub_punct (upper (chars (title f)))) in
       PyDict.set d clean_title f)
    films [].

(** The partial-match loop of [find_film_in_db]. *)
Fixpoint partial_match (clean : string) (items : list (string * CatalogFilm))
    : option CatalogFilm :=
  match items with
  | [] => None
  | (db_title, f) :: rest =>
      if str_in clean db_title || str_in db_title clean then Some f
      else partial_match clean rest
  end.

Definition find_film_in_db (lookup : PyDict.dict CatalogFilm) (title : string)
    : option CatalogFilm :=
  let title_upper := str (strip (upper (chars title))) in
  match PyDict.get lookup title_upper with
  | Some f => Some f
  | None =>
      let clean := str (sub_punct (chars title_upper)) in
      match PyDict.get lookup clean with
      | Some f => Some f
      | None => partial_match clean lookup
      end
  end.







End ParsePdf.

(* ================================================================= *)
(** * Properties *)

(** ** Characters and the string passes *)

Section StringPasses.
Import PyStr.

Ltac all_chars c := destruct c as [[] [] [] [] [] [] [] []]; vm_compute; reflexivity.

Lemma upper_char_twice (c : ascii) : upper_char (upper_char c) = upper_char c.
Proof. all_chars c. Qed.

Lemma is_space_upper_char (c : ascii) : is_space (upper_char c) = is_space c.
Proof. all_chars c. Qed.

Lemma keeps_upper_char (c : ascii) : keeps (upper_char c) = keeps c.
Proof. all_chars c. Qed.

Lemma chars_str (l : list ascii) : chars (str l) = l.
Proof. apply list_ascii_of_string_of_list_ascii. Qed.

Lemma str_chars (s : string) : str (chars s) = s.
Proof. apply string_of_list_ascii_of_string. Qed.

Lemma drop_space_no_lead (l : list ascii) : no_lead (drop_space l).
Proof.
  induction l as [|c r IH]; simpl; [exact I|].
  destruct (is_space c) eqn:E; [exact IH | simpl; exact E].
Qed.

Lemma no_lead_drop_space (l : list ascii) : no_lead l -> drop_space l = l.
Proof.
  destruct l as [|c r]; simpl; [reflexivity|].
  intros ->. reflexivity.
Qed.

Lemma drop_space_snoc (x : list ascii) (c : ascii) :
  is_space c = false -> drop_space (x ++ [c]) = drop_space x ++ [c].
Proof.
  intros Hc. induction x as [|a x IH]; simpl.
  - rewrite Hc. reflexivity.
  - destruct (is_space a); [exact IH | reflexivity].
Qed.

Lemma sub_spaces_snoc (x : list ascii) (c : ascii) (b : bool) :
  is_space c = false -> sub_spaces b (x ++ [c]) = sub_spaces b x ++ [c].
Proof.
  intros Hc. revert b. induction x as [|a x IH]; intros b; simpl.
  - rewrite Hc. reflexivity.
  - destruct (is_space a); [destruct b|]; simpl; rewrite IH; reflexivity.
Qed.

(** A list that ends in a character which is not whitespace is that
    character after a list. *)
Lemma no_lead_rev_inv (l : list ascii) :
  no_lead (rev l) -> l = [] \/ exists x c, l = x ++ [c] /\ is_space c = false.
Proof.
  intros H. destruct (rev l) as [|c y] eqn:E.
  - left. apply (f_equal (@rev ascii)) in E. rewrite rev_involutive in E. exact E.
  - right. exists (rev y), c. split; [|exact H].
    apply (f_equal (@rev ascii)) in E. rewrite rev_involutive in E. exact E.
Qed.

Lemma strip_trimmed (l : list ascii) : trimmed (strip l).
Proof.
  unfold strip, trimmed. split.
  - pose proof (drop_space_no_lead l) as H.
    destruct (drop_space l) as [|c v]; simpl in *; [exact I|].
    rewrite (drop_space_snoc _ _ H), rev_app_distr. simpl. exact H.
  - rewrite rev_involutive. apply drop_space_no_lead.
Qed.

Lemma trimmed_strip (l : list ascii) : trimmed l -> strip l = l.
Proof.
  intros [H1 H2]. unfold strip.
  rewrite (no_lead_drop_space _ H1), (no_lead_drop_space _ H2).
  apply rev_involutive.
Qed.

Lemma sub_spaces_trimmed (l : list ascii) :
  trimmed l -> trimmed (sub_spaces false l).
Proof.
  intros [H1 H2]. split.
  - destruct l as [|c r]; simpl in *; [exact I|]. rewrite H1. simpl. exact H1.
  - destruct (no_lead_rev_inv _ H2) as [-> | (x & c & -> & Hc)]; [exact I|].
    rewrite (sub_spaces_snoc _ _ _ Hc), rev_app_distr. simpl. exact Hc.
Qed.

Lemma sub_spaces_twice (l : list ascii) (b : bool) :
  sub_spaces b (sub_spaces b l) = sub_spaces b l.
Proof.
  revert b. induction l as [|c r IH]; intros b; simpl; [reflexivity|].
  destruct (is_space c) eqn:E.
  - destruct b; simpl; [apply IH|]. rewrite IH. reflexivity.
  - simpl. rewrite E, IH. reflexivity.
Qed.

Lemma clean_drop_space (l : list ascii) : clean l -> clean (drop_space l).
Proof.
  unfold clean. induction 1 as [|c r Hc Hr IH]; simpl; [constructor|].
  destruct (is_space c); [exact IH | constructor; assumption].
Qed.

Lemma clean_strip (l : list ascii) : clean l -> clean (strip l).
Proof.
  intros H. unfold strip. apply Forall_rev, clean_drop_space, Forall_rev,
    clean_drop_space, H.
Qed.

Lemma clean_upper (l : list ascii) : clean l -> clean (upper l).
Proof.
  unfold clean, upper. intros H. apply Forall_map.
  eapply Forall_impl; [|exact H]. intros c Hc. simpl.
  rewrite keeps_upper_char. exact Hc.
Qed.

Lemma clean_sub_spaces (l : list ascii) (b : bool) :
  clean l -> clean (sub_spaces b l).
Proof.
  unfold clean. intros H. revert b.
  induction H as [|c r Hc Hr IH]; intros b; simpl; [constructor|].
  destruct (is_space c); [destruct b|]; try constructor; auto.
Qed.

Lemma clean_sub_punct (l : list ascii) : clean (sub_punct l).
Proof.
  unfold clean, sub_punct. apply Forall_forall. intros c Hc.
  apply filter_In in Hc. apply Hc.
Qed.

Lemma sub_punct_clean (l : list ascii) : clean l -> sub_punct l = l.
Proof.
  unfold clean, sub_punct. induction 1 as [|c r Hc Hr IH]; simpl; [reflexivity|].
  rewrite Hc, IH. reflexivity.
Qed.

Lemma upper_fixed_upper (l : list ascii) : upper_fixed (upper l).
Proof.
  unfold upper_fixed, upper. apply Forall_map, Forall_forall.
  intros c _. apply upper_char_twice.
Qed.

Lemma upper_fixed_id (l : list ascii) : upper_fixed l -> upper l = l.
Proof.
  unfold upper_fixed, upper. induction 1 as [|c r Hc Hr IH]; simpl; [reflexivity|].
  rewrite Hc, IH. reflexivity.
Qed.

Lemma upper_fixed_drop_space (l : list ascii) :
  upper_fixed l -> upper_fixed (drop_space l).
Proof.
  unfold upper_fixed. induction 1 as [|c r Hc Hr IH]; simpl; [constructor|].
  destruct (is_space c); [exact IH | constructor; assumption].
Qed.

Lemma upper_fixed_strip (l : list ascii) : upper_fixed l -> upper_fixed (strip l).
Proof.
  intros H. unfold strip. apply Forall_rev, upper_fixed_drop_space, Forall_rev,
    upper_fixed_drop_space, H.
Qed.

Lemma upper_fixed_sub_spaces (l : list ascii) (b : bool) :
  upper_fixed l -> upper_fixed (sub_spaces b l).
Proof.
  unfold upper_fixed. intros H. revert b.
  induction H as [|c r Hc Hr IH]; intros b; simpl; [constructor|].
  destruct (is_space c); [destruct b|]; try constructor; auto.
Qed.


End StringPasses.

(** ** The title normaliser *)

Section Normalizer.
Import PyStr Extract.

(** The normaliser on character lists. *)
Lemma normalize_title_chars (s : string) :
  chars (normalize_title s) =
  sub_punct (sub_spaces false (strip (upper (chars s)))).
Proof. unfold normalize_title. apply chars_str. Qed.

(** On a title without punctuation the last pass has nothing to remove, and
    the key is trimmed, single-spaced and upper-cased. *)
Lemma normalize_title_clean_shape (s : string) :
  clean (chars s) ->
  let w := sub_spaces false (strip (upper (chars s))) in
  chars (normalize_title s) = w /\ clean w /\ trimmed w /\ upper_fixed w.
Proof.
  intros H w.
  assert (Hw : clean w)
    by (apply clean_sub_spaces, clean_strip, clean_upper, H).
  repeat split.
  - rewrite normalize_title_chars. apply sub_punct_clean, Hw.
  - exact Hw.
  - apply sub_spaces_trimmed, strip_trimmed.
  - apply sub_spaces_trimmed, strip_trimmed.
  - apply upper_fixed_sub_spaces, upper_fixed_strip, upper_fixed_upper.
Qed.

Lemma normalize_title_clean_chars (s : string) :
  clean (chars s) -> normalize_title (normalize_title s) = normalize_title s.
Proof.
  intros H.
  destruct (normalize_title_clean_shape s H) as (E & Hc & Ht & Hu).
  unfold normalize_title at 1. rewrite E.
  rewrite (upper_fixed_id _ Hu), (trimmed_strip _ Ht), sub_spaces_twice,
    (sub_punct_clean _ Hc).
  rewrite <- E. apply str_chars.
Qed.

(** Every key the normaliser produces is free of punctuation. *)
Lemma normalize_title_is_clean (s : string) : clean (chars (normalize_title s)).
Proof. rewrite normalize_title_chars. apply clean_sub_punct. Qed.

(** C2, as amended: on a title made of word characters and whitespace only,
    normalising the key again returns the key. *)
Theorem normalize_title_idempotent_without_punctuation (s : string) :
  forallb keeps (chars s) = true ->
  normalize_title (normalize_title s) = normalize_title s.
Proof.
  intros H. apply normalize_title_clean_chars.
  unfold clean. apply Forall_forall. intros c Hc.
  rewrite forallb_forall in H. apply H, Hc.
Qed.

Lemma normalize_title_idempotent_without_punctuation_witness :
  forallb keeps (chars "Man of  Marble ") = true /\
  normalize_title (normalize_title "Man of  Marble ") =
  normalize_title "Man of  Marble ".
Proof.
  split; [reflexivity|].
  apply (normalize_title_idempotent_without_punctuation "Man of  Marble ").
  reflexivity.
Defined.

(** C2 fails as stated: punctuation between two spaces is removed after the
    whitespace runs were collapsed, so the key of ["A - B"] has two adjacent
    spaces, which a second pass collapses. *)
Lemma normalize_title_not_idempotent :
  normalize_title "A - B" = "A  B" /\
  normalize_title (normalize_title "A - B") = "A B" /\
  normalize_title (normalize_title "A - B") <> normalize_title "A - B".
Proof. repeat split; vm_compute; discriminate. Qed.

(** The same on a title of the Feb 6 table. *)
Example normalize_title_kodava :
  normalize_title "UMMATHAT - THE RHYTHM OF KODAVA"
    = "UMMATHAT  THE RHYTHM OF KODAVA" /\
  normalize_title (normalize_title "UMMATHAT - THE RHYTHM OF KODAVA")
    = "UMMATHAT THE RHYTHM OF KODAVA".
Proof. split; reflexivity. Qed.

(** From the second pass on the key is stable, for every title. *)
Lemma normalize_title_stable_after_two (s : string) :
  normalize_title (normalize_title (normalize_title s)) =
  normalize_title (normalize_title s).
Proof. apply normalize_title_clean_chars, normalize_title_is_clean. Qed.

Example normalize_title_marble :
  normalize_title "Man of Marble" = normalize_title "MAN, OF MARBLE!".
Proof. reflexivity. Qed.

End Normalizer.

(** ** The catalog matcher *)

Section Matcher.
Import PyStr Extract.

(** The first loop returns the first entry, in the order of the dictionary,
    whose normalised key is the normalised input. *)
Lemma direct_match_first (n : string) (db : PyDict.dict CatalogFilm) :
  (exists k f, In (k, f) db /\ normalize_title k = n) ->
  exists pre k0 f0 post,
    db = pre ++ (k0, f0) :: post /\
    normalize_title k0 = n /\
    (forall e, In e pre -> normalize_title (fst e) <> n) /\
    direct_match n db = Some f0.
Proof.
  induction db as [|[k1 f1] db IH]; intros (k & f & Hin & Hk).
  - destruct Hin.
  - simpl. destruct (String.eqb (normalize_title k1) n) eqn:E.
    + apply String.eqb_eq in E.
      exists [], k1, f1, db. repeat split; auto; intros e [].
    + apply String.eqb_neq in E.
      destruct Hin as [Heq | Hin]; [inversion Heq; subst; contradiction|].
      destruct IH as (pre & k0 & f0 & post & -> & H0 & Hpre & Hd);
        [exists k, f; auto|].
      exists ((k1, f1) :: pre), k0, f0, post. repeat split; auto.
      intros e [<- | He]; [exact E | apply Hpre, He].
Qed.

(** The first loop finds nothing only when no key matches. *)
Lemma direct_match_none (n : string) (db : PyDict.dict CatalogFilm) :
  direct_match n db = None ->
  forall k f, In (k, f) db -> normalize_title k <> n.
Proof.
  induction db as [|[k1 f1] db IH]; simpl; intros H k f Hin; [destruct Hin|].
  destruct (String.eqb (normalize_title k1) n) eqn:E; [discriminate|].
  apply String.eqb_neq in E.
  destruct Hin as [Heq | Hin]; [inversion Heq; subst; exact E|].
  eapply IH; eauto.
Qed.

(** C1: when some catalog entry matches the input exactly and another entry
    [(k', f')] only by containment, [find_film_match] returns the first
    exactly-matching entry of the catalog; the entry returned is not
    [(k', f')], wherever that one stands in the catalog. *)
Theorem find_film_match_exact_first (title : string)
    (db : PyDict.dict CatalogFilm) (k k' : string) (f f' : CatalogFilm) :
  In (k, f) db ->
  normalize_title k = normalize_title title ->
  In (k', f') db ->
  normalize_title k' <> normalize_title title ->
  str_in (normalize_title title) (normalize_title k')
    || str_in (normalize_title k') (normalize_title title) = true ->
  exists pre k0 f0 post,
    db = pre ++ (k0, f0) :: post /\
    normalize_title k0 = normalize_title title /\
    (forall e, In e pre -> normalize_title (fst e) <> normalize_title title) /\
    k0 <> k' /\
    find_film_match title db = Some f0.
Proof.
  intros Hin Hk _ Hk' _.
  destruct (direct_match_first (normalize_title title) db)
    as (pre & k0 & f0 & post & Hdb & H0 & Hpre & Hd); [exists k, f; auto|].
  exists pre, k0, f0, post. repeat split; auto.
  - intros ->. contradiction.
  - unfold find_film_match. rewrite Hd. reflexivity.
Qed.

(** With a single exactly-matching entry, that entry is the result. *)
Lemma find_film_match_exact_unique (title : string)
    (db : PyDict.dict CatalogFilm) (k : string) (f : CatalogFilm) :
  In (k, f) db ->
  normalize_title k = normalize_title title ->
  (forall k2 f2, In (k2, f2) db ->
     normalize_title k2 = normalize_title title -> f2 = f) ->
  find_film_match title db = Some f.
Proof.
  intros Hin Hk Huniq.
  destruct (direct_match_first (normalize_title title) db)
    as (pre & k0 & f0 & post & Hdb & H0 & Hpre & Hd); [exists k, f; auto|].
  unfold find_film_match. rewrite Hd. f_equal.
  apply (Huniq k0 f0); [|exact H0].
  rewrite Hdb. apply in_or_app. right. left. reflexivity.
Qed.

Lemma find_film_match_exact_first_witness :
  let restored := mkFilm "Man of Marble (Restored)" [] in
  let marble := mkFilm "Man of Marble" [("director", PStr "Andrzej Wajda")] in
  let db := [("MAN OF MARBLE (RESTORED)", restored); ("MAN OF MARBLE", marble)] in
  exists pre k0 f0 post,
    db = pre ++ (k0, f0) :: post /\
    normalize_title k0 = normalize_title "Man Of Marble" /\
    (forall e, In e pre ->
       normalize_title (fst e) <> normalize_title "Man Of Marble") /\
    k0 <> "MAN OF MARBLE (RESTORED)" /\
    find_film_match "Man Of Marble" db = Some f0.
Proof.
  intros restored marble db.
  apply (find_film_match_exact_first "Man Of Marble" db
           "MAN OF MARBLE" "MAN OF MARBLE (RESTORED)" marble restored).
  - right. left. reflexivity.
  - reflexivity.
  - left. reflexivity.
  - vm_compute. discriminate.
  - reflexivity.
Defined.

(** The entry returned in the situation above is the exact one although the
    containing entry comes first in the catalog. *)
Example find_film_match_marble :
  let restored := mkFilm "Man of Marble (Restored)" [] in
  let marble := mkFilm "Man of Marble" [("director", PStr "Andrzej Wajda")] in
  find_film_match "Man Of Marble"
    [("MAN OF MARBLE (RESTORED)", restored); ("MAN OF MARBLE", marble)]
  = Some marble /\
  find_film_match "MAN, OF, MARBLE (RESTORED) 4K"
    [("MAN OF MARBLE", marble)] = Some marble.
Proof. split; reflexivity. Qed.

(** The matcher of parse-schedule-pdf.py looks the upper-cased title up
    before it scans for containment. *)
Lemma find_film_in_db_exact_first (lookup : PyDict.dict CatalogFilm)
    (title : string) (f : CatalogFilm) :
  PyDict.get lookup (str (strip (upper (chars title)))) = Some f ->
  ParsePdf.find_film_in_db lookup title = Some f.
Proof. intros H. unfold ParsePdf.find_film_in_db. rewrite H. reflexivity. Qed.

End Matcher.

(** ** Dictionaries *)

Section Dictionaries.
Context {V : Type}.
Implicit Types (d : PyDict.dict V) (k : string) (v : V).

Lemma get_set_same d k v : PyDict.get (PyDict.set d k v) k = Some v.
Proof.
  induction d as [|[k1 v1] d IH]; simpl.
  - rewrite String.eqb_refl. reflexivity.
  - destruct (String.eqb k1 k) eqn:E; simpl; rewrite E; [reflexivity | exact IH].
Qed.

Lemma get_set_other d k k' v :
  k' <> k -> PyDict.get (PyDict.set d k v) k' = PyDict.get d k'.
Proof.
  intros Hne. induction d as [|[k1 v1] d IH]; simpl.
  - destruct (String.eqb k k') eqn:E; [|reflexivity].
    apply String.eqb_eq in E. subst. contradiction.
  - destruct (String.eqb k1 k) eqn:E; simpl.
    + apply String.eqb_eq in E. subst k1.
      destruct (String.eqb k k') eqn:E'; [|reflexivity].
      apply String.eqb_eq in E'. subst. contradiction.
    + destruct (String.eqb k1 k'); [reflexivity | exact IH].
Qed.

Lemma get_filter_keys (p : string -> bool) d k :
  p k = true ->
  PyDict.get (filter (fun item => p (fst item)) d) k = PyDict.get d k.
Proof.
  intros Hp. induction d as [|[k1 v1] d IH]; simpl; [reflexivity|].
  destruct (String.eqb k1 k) eqn:E.
  - apply String.eqb_eq in E. subst k1. rewrite Hp. simpl.
    rewrite String.eqb_refl. reflexivity.
  - destruct (p k1); simpl; [rewrite E|]; exact IH.
Qed.

End Dictionaries.

(** ** The schedule assembler *)

Section Assembler.
Import Extract.

Lemma fold_left_snoc {A B} (g : B -> A) (l : list B) (acc : list A) :
  fold_left (fun acc x => acc ++ [g x]) l acc = acc ++ map g l.
Proof.
  revert acc. induction l as [|x l IH]; intros acc; simpl.
  - symmetry. apply app_nil_r.
  - rewrite IH, <- app_assoc. reflexivity.
Qed.

Lemma foldM_ext {A B} (f g : A -> B -> result A) (l : list B) (a : A) :
  (forall a b, In b l -> f a b = g a b) -> foldM f l a = foldM g l a.
Proof.
  revert a. induction l as [|b l IH]; intros a H; simpl; [reflexivity|].
  rewrite (H a b) by (left; reflexivity).
  destruct (g a b); simpl; [|reflexivity].
  apply IH. intros a1 b1 Hb. apply H. right. exact Hb.
Qed.

Lemma cinepolis_block_screens (tbl : day_films) (d : PyDict.dict (list film_data))
    (acc : list Screening) :
  PyDict.get tbl "cinepolis" = Some (Screens d) ->
  cinepolis_block tbl acc = Ok (acc ++ map cinepolis_screening d).
Proof.
  intros H. unfold cinepolis_block. rewrite H.
  f_equal. apply (fold_left_snoc cinepolis_screening).
Qed.

Lemma cinepolis_block_inv (tbl : day_films) (acc acc' : list Screening) :
  cinepolis_block tbl acc = Ok acc' ->
  (PyDict.get tbl "cinepolis" = None /\ acc' = acc) \/
  (exists d, PyDict.get tbl "cinepolis" = Some (Screens d) /\
             acc' = acc ++ map cinepolis_screening d).
Proof.
  intros H. destruct (PyDict.get tbl "cinepolis") as [[d|l]|] eqn:E.
  - right. exists d. split; [reflexivity|].
    rewrite (cinepolis_block_screens _ _ _ E) in H. inversion H. reflexivity.
  - unfold cinepolis_block in H. rewrite E in H. discriminate.
  - left. unfold cinepolis_block in H. rewrite E in H. inversion H. auto.
Qed.

(** A turn of the venue loop adds nothing, or one Screening that has
    showings. *)
Lemma venue_step_inv (tbl : day_films) (acc acc' : list Screening) (v : string) :
  venue_step tbl acc v = Ok acc' ->
  acc' = acc \/
  (exists content r rows,
     PyDict.get tbl v = Some content /\ rows_of content = Ok (r :: rows) /\
     acc' = acc ++ [venue_screening v (r :: rows)]).
Proof.
  unfold venue_step. destruct (PyDict.get tbl v) as [content|]; simpl.
  - destruct (rows_of content) as [[|r rows]|e] eqn:E; simpl; intros H;
      inversion H; subst; [left; reflexivity|].
    right. exists content, r, rows. auto.
  - intros H. inversion H. left. reflexivity.
Qed.

Lemma venue_step_films (tbl : day_films) (acc : list Screening) (v : string)
    (r : film_data) (rows : list film_data) :
  PyDict.get tbl v = Some (Films (r :: rows)) ->
  venue_step tbl acc v = Ok (acc ++ [venue_screening v (r :: rows)]).
Proof. intros H. unfold venue_step. rewrite H. reflexivity. Qed.

Lemma venue_loop_incl (tbl : day_films) (vs : list string)
    (acc acc' : list Screening) :
  foldM (venue_step tbl) vs acc = Ok acc' -> incl acc acc'.
Proof.
  revert acc. induction vs as [|v vs IH]; simpl; intros acc H.
  - inversion H. apply incl_refl.
  - destruct (venue_step tbl acc v) as [acc1|e] eqn:E; simpl in H; [|discriminate].
    apply IH in H. apply venue_step_inv in E.
    destruct E as [-> | (c & r & rows & _ & _ & ->)]; [exact H|].
    intros sc Hsc. apply H, in_or_app. left. exact Hsc.
Qed.

Lemma venue_loop_films (tbl : day_films) (vs : list string)
    (acc acc' : list Screening) (v : string) (r : film_data)
    (rows : list film_data) :
  foldM (venue_step tbl) vs acc = Ok acc' ->
  In v vs ->
  PyDict.get tbl v = Some (Films (r :: rows)) ->
  In (venue_screening v (r :: rows)) acc'.
Proof.
  revert acc. induction vs as [|v1 vs IH]; simpl; intros acc H Hin Hget;
    [destruct Hin|].
  destruct (venue_step tbl acc v1) as [acc1|e] eqn:E; simpl in H; [|discriminate].
  destruct Hin as [-> | Hin].
  - rewrite (venue_step_films _ _ _ _ _ Hget) in E. inversion E; subst.
    apply (venue_loop_incl _ _ _ _ H), in_or_app. right. left. reflexivity.
  - eapply IH; eauto.
Qed.

(** What [convert_to_schedule_format] returns when it returns. *)
Lemma convert_inv (tbl : day_films) (d : string) (n : Z) (l : string)
    (day : ScheduleDay) :
  convert_to_schedule_format tbl d n l = Ok day ->
  exists cs, cinepolis_block tbl [] = Ok cs /\
             foldM (venue_step tbl) OTHER_VENUES cs = Ok (screenings day) /\
             date day = d /\ dayNumber day = n /\ label day = l.
Proof.
  unfold convert_to_schedule_format.
  destruct (cinepolis_block tbl []) as [cs|e]; cbn [bind]; [|discriminate].
  destruct (foldM (venue_step tbl) OTHER_VENUES cs) as [ss|e] eqn:E; cbn [bind];
    [|discriminate].
  intros H. inversion H; subst. exists cs.
  cbn [screenings date dayNumber label]. auto.
Qed.

Lemma venue_loop_returns (tbl : day_films) (vs : list string)
    (acc : list Screening) :
  forallb (fun v => match PyDict.get tbl v with
                    | Some (Screens _) => false
                    | _ => true
                    end) vs = true ->
  exists acc', foldM (venue_step tbl) vs acc = Ok acc'.
Proof.
  revert acc. induction vs as [|v vs IH]; simpl; intros acc H.
  - exists acc. reflexivity.
  - apply andb_prop in H. destruct H as [Hv Hvs].
    assert (E : exists acc1, venue_step tbl acc v = Ok acc1).
    { unfold venue_step.
      destruct (PyDict.get tbl v) as [[dct|rows]|]; [discriminate| |eauto].
      simpl. destruct (map showing_of rows); eauto. }
    destruct E as (acc1 & ->). simpl. apply IH, Hvs.
Qed.

(** On a table of that shape the assembler returns a day. *)
Lemma convert_returns (tbl : day_films) (d : string) (n : Z) (l : string) :
  well_shaped tbl = true ->
  exists day, convert_to_schedule_format tbl d n l = Ok day.
Proof.
  unfold well_shaped. intros H. apply andb_prop in H. destruct H as [Hc Hv].
  unfold convert_to_schedule_format.
  assert (E : exists cs, cinepolis_block tbl [] = Ok cs).
  { unfold cinepolis_block.
    destruct (PyDict.get tbl "cinepolis") as [[dct|rows]|]; [eauto|discriminate|eauto]. }
  destruct E as (cs & ->). cbn [bind].
  destruct (venue_loop_returns tbl OTHER_VENUES cs Hv) as (ss & ->).
  cbn [bind]. eauto.
Qed.

End Assembler.

Section AssemblerClaims.
Import Extract.

Lemma venue_screening_times (v : string) (rows : list film_data) :
  map time (showings (venue_screening v rows)) = map t_time rows.
Proof. simpl. rewrite map_map. reflexivity. Qed.

Lemma cinepolis_screening_times (item : string * list film_data) :
  map time (showings (cinepolis_screening item)) = map t_time (snd item).
Proof. simpl. rewrite map_map. reflexivity. Qed.

(** C3, as amended: the time of a showing is the time written in its own
    row.  On a day table of the script's shape the assembler returns a day
    in which a venue with rows has one Screening that holds one showing per
    row, in the order of the rows and each at its row's time, and so has
    every screen of the cinepolis table; [TIME_SLOTS] plays no part, and no
    row is turned away. *)
Theorem showings_keep_row_times (tbl : day_films) (d : string) (n : Z)
    (l : string) :
  well_shaped tbl = true ->
  exists day,
    convert_to_schedule_format tbl d n l = Ok day /\
    (forall v r rows,
        In v OTHER_VENUES ->
        PyDict.get tbl v = Some (Films (r :: rows)) ->
        exists sc, In sc (screenings day) /\
          venue sc = (if String.eqb v "forum" then "cinepolis" else v) /\
          screen sc = (if String.eqb v "forum" then "Open Forum" else "1") /\
          showings sc = map showing_of (r :: rows) /\
          map time (showings sc) = map t_time (r :: rows)) /\
    (forall screens s rows,
        PyDict.get tbl "cinepolis" = Some (Screens screens) ->
        In (s, rows) screens ->
        exists sc, In sc (screenings day) /\
          venue sc = "cinepolis" /\ screen sc = s /\
          showings sc = map showing_of rows /\
          map time (showings sc) = map t_time rows).
Proof.
  intros Hshape. destruct (convert_returns tbl d n l Hshape) as (day & H).
  exists day. split; [exact H|].
  apply convert_inv in H.
  destruct H as (cs & Hc & Hv & _). split.
  - intros v r rows Hin Hget. exists (venue_screening v (r :: rows)).
    split; [eapply venue_loop_films; eauto|].
    repeat split. apply venue_screening_times.
  - intros screens s rows Hget Hin.
    exists (cinepolis_screening (s, rows)).
    split; [|repeat split; apply (cinepolis_screening_times (s, rows))].
    rewrite (cinepolis_block_screens _ _ _ Hget) in Hc. inversion Hc; subst.
    apply (venue_loop_incl _ _ _ _ Hv). simpl.
    apply in_map. exact Hin.
Qed.

Lemma showings_keep_row_times_witness :
  let r := row "19:00" "AMMANG HELBEDA" (PStr "Anoop Lokkur") "India" 2025
               "Kannada" 90 in
  let tbl := [("openair", Films [r])] in
  well_shaped tbl = true /\
  exists day,
    convert_to_schedule_format tbl "2026-02-03" 5 "Day 5 - Tuesday" = Ok day /\
    screenings day = [ {| venue := "openair"; screen := "1";
                          showings := [showing_of r] |} ] /\
    exists sc, In sc (screenings day) /\
      venue sc = "openair" /\ screen sc = "1" /\
      showings sc = [showing_of r] /\
      map time (showings sc) = [PStr "19:00"].
Proof.
  intros r tbl. split; [reflexivity|].
  destruct (showings_keep_row_times tbl "2026-02-03" 5 "Day 5 - Tuesday" eq_refl)
    as (day & Hday & Hv & _).
  exists day. split; [exact Hday|].
  split; [inversion Hday; reflexivity|].
  exact (Hv "openair" r [] (or_intror (or_intror (or_introl eq_refl))) eq_refl).
Defined.

(** C3 fails as stated.  On the Feb 3 table the second banashankari showing
    is at 11:15, the time of its row, where the second slot of the venue is
    15:00, and the fourth showing has no slot at all; and a second row for
    the open-air screen is kept, at the time it carries. *)
Lemma slot_table_not_consulted :
  (exists day sc,
     convert_to_schedule_format FEB_3_FILMS "2026-02-03" 5 "Day 5 - Tuesday"
       = Ok day /\
     nth_error (screenings day) 9 = Some sc /\
     venue sc = "banashankari" /\
     map time (showings sc)
       = [PStr "10:30"; PStr "11:15"; PStr "15:00"; PStr "18:00"] /\
     PyDict.get TIME_SLOTS "banashankari" = Some ["10:30"; "15:00"; "18:00"] /\
     ~ slot_rule ["10:30"; "15:00"; "18:00"] (showings sc)) /\
  (exists day sc,
     convert_to_schedule_format
       [("openair", Films [ row "19:00" "RIVERSTONE" (PStr "Lalith Rathnayake")
                                "Sri Lanka" 2025 "Sinhala" 120;
                            row "21:30" "MEMORIA" (PStr "Apichatpong Weerasethakul")
                                "Thailand" 2021 "English" 136 ])]
       "2026-02-05" 7 "Day 7 - Thursday" = Ok day /\
     screenings day = [sc] /\
     map time (showings sc) = [PStr "19:00"; PStr "21:30"] /\
     PyDict.get TIME_SLOTS "openair" = Some ["19:00"] /\
     ~ slot_rule ["19:00"] (showings sc)).
Proof.
  split.
  - eexists. eexists. split; [vm_compute; reflexivity|].
    split; [reflexivity|]. repeat split.
    intros H. destruct (H 1 _ eq_refl) as (slot & Hs & Ht).
    inversion Hs; subst. discriminate Ht.
  - eexists. eexists. split; [vm_compute; reflexivity|].
    split; [reflexivity|]. repeat split.
    intros H. destruct (H 1 _ eq_refl) as (slot & Hs & Ht).
    discriminate Hs.
Qed.

(** C6: a cinepolis screen without rows is emitted all the same, as a
    Screening with no showings. *)
Theorem cinepolis_empty_screen_emitted :
  convert_to_schedule_format [("cinepolis", Screens [("1", [])])]
    "2026-02-03" 5 "Day 5 - Tuesday"
  = Ok {| date := "2026-02-03"; dayNumber := 5; label := "Day 5 - Tuesday";
          screenings := [ {| venue := "cinepolis"; screen := "1";
                             showings := [] |} ] |}.
Proof. reflexivity. Qed.

(** The loop over the other venues, which tests [if showings], adds no
    Screening without showings. *)
Lemma venue_loop_no_empty (tbl : day_films) (vs : list string)
    (acc acc' : list Screening) :
  foldM (venue_step tbl) vs acc = Ok acc' ->
  Forall (fun sc => showings sc <> []) acc ->
  Forall (fun sc => showings sc <> []) acc'.
Proof.
  revert acc. induction vs as [|v vs IH]; simpl; intros acc H Hacc.
  - inversion H; subst. exact Hacc.
  - destruct (venue_step tbl acc v) as [acc1|e] eqn:E; simpl in H; [|discriminate].
    apply (IH _ H). apply venue_step_inv in E.
    destruct E as [-> | (c & r & rows & _ & _ & ->)]; [exact Hacc|].
    apply Forall_app. split; [exact Hacc|].
    constructor; [simpl; discriminate | constructor].
Qed.

(** Without a cinepolis table no Screening of the day is empty. *)
Lemma no_empty_screening_without_cinepolis (tbl : day_films) (d : string)
    (n : Z) (l : string) (day : ScheduleDay) :
  PyDict.get tbl "cinepolis" = None ->
  convert_to_schedule_format tbl d n l = Ok day ->
  Forall (fun sc => showings sc <> []) (screenings day).
Proof.
  intros Hc H. apply convert_inv in H. destruct H as (cs & Hcs & Hv & _).
  apply cinepolis_block_inv in Hcs.
  destruct Hcs as [[_ ->] | (dct & Hd & _)]; [|congruence].
  apply (venue_loop_no_empty _ _ _ _ Hv). constructor.
Qed.

End AssemblerClaims.

Section UnknownVenues.
Import Extract.

Lemma cinepolis_block_known_part (tbl : day_films) (acc : list Screening) :
  cinepolis_block (known_part tbl) acc = cinepolis_block tbl acc.
Proof.
  unfold cinepolis_block, known_part.
  rewrite (get_filter_keys known_venue) by reflexivity. reflexivity.
Qed.

Lemma venue_step_known_part (tbl : day_films) (acc : list Screening)
    (v : string) :
  known_venue v = true ->
  venue_step (known_part tbl) acc v = venue_step tbl acc v.
Proof.
  intros Hv. unfold venue_step, known_part.
  rewrite (get_filter_keys known_venue) by exact Hv. reflexivity.
Qed.

Lemma other_venues_known (v : string) : In v OTHER_VENUES -> known_venue v = true.
Proof.
  intros [<- | [<- | [<- | [<- | []]]]]; reflexivity.
Qed.

Lemma convert_known_part (tbl : day_films) (d : string) (n : Z) (l : string) :
  convert_to_schedule_format (known_part tbl) d n l
  = convert_to_schedule_format tbl d n l.
Proof.
  unfold convert_to_schedule_format.
  rewrite cinepolis_block_known_part.
  destruct (cinepolis_block tbl []) as [cs|e]; cbn [bind]; [|reflexivity].
  rewrite (foldM_ext (venue_step (known_part tbl)) (venue_step tbl)).
  - reflexivity.
  - intros a v Hv. apply venue_step_known_part, other_venues_known, Hv.
Qed.

(** The venues a Screening can carry: forum showings go under cinepolis. *)
Lemma venue_loop_venues (tbl : day_films) (vs : list string)
    (acc acc' : list Screening) (names : list string) :
  foldM (venue_step tbl) vs acc = Ok acc' ->
  (forall v, In v vs ->
     In (if String.eqb v "forum" then "cinepolis" else v) names) ->
  Forall (fun sc => In (venue sc) names) acc ->
  Forall (fun sc => In (venue sc) names) acc'.
Proof.
  revert acc. induction vs as [|v vs IH]; simpl; intros acc H Hvs Hacc.
  - inversion H; subst. exact Hacc.
  - destruct (venue_step tbl acc v) as [acc1|e] eqn:E; simpl in H; [|discriminate].
    apply (IH _ H); [intros v' Hv'; apply Hvs; right; exact Hv'|].
    apply venue_step_inv in E.
    destruct E as [-> | (c & r & rows & _ & _ & ->)]; [exact Hacc|].
    apply Forall_app. split; [exact Hacc|].
    constructor; [|constructor]. simpl. apply Hvs. left. reflexivity.
Qed.

(** C10: the assembler reads only the keys cinepolis, rajkumar,
    banashankari, openair and forum of a day table.  Its result, a day or an
    exception, is the result on the table without every other key, and no
    Screening of the day names a venue besides cinepolis, rajkumar,
    banashankari and openair. *)
Theorem unknown_venue_keys_omitted (tbl : day_films) (d : string) (n : Z)
    (l : string) :
  convert_to_schedule_format tbl d n l
    = convert_to_schedule_format (known_part tbl) d n l /\
  (forall day sc,
      convert_to_schedule_format tbl d n l = Ok day ->
      In sc (screenings day) ->
      In (venue sc) ["cinepolis"; "rajkumar"; "banashankari"; "openair"]).
Proof.
  split; [symmetry; apply convert_known_part|].
  intros day sc H Hsc. apply convert_inv in H.
  destruct H as (cs & Hc & Hv & _).
  assert (Hall : Forall (fun sc => In (venue sc)
                   ["cinepolis"; "rajkumar"; "banashankari"; "openair"])
                   (screenings day)).
  { apply (venue_loop_venues _ _ _ _ _ Hv).
    - intros v [<- | [<- | [<- | [<- | []]]]]; simpl; auto.
    - apply cinepolis_block_inv in Hc.
      destruct Hc as [[_ ->] | (dct & _ & ->)]; [constructor|].
      simpl. apply Forall_map, Forall_forall. intros item _. simpl. auto. }
  rewrite Forall_forall in Hall. apply Hall, Hsc.
Qed.

(** Writing under a key the assembler does not know changes nothing. *)
Lemma convert_set_unknown (tbl : day_films) (k : string) (content : venue_films)
    (d : string) (n : Z) (l : string) :
  known_venue k = false ->
  convert_to_schedule_format (PyDict.set tbl k content) d n l
  = convert_to_schedule_format tbl d n l.
Proof.
  intros Hk.
  assert (Hget : forall v, known_venue v = true ->
                   PyDict.get (PyDict.set tbl k content) v = PyDict.get tbl v).
  { intros v Hv. apply get_set_other. intros ->. congruence. }
  unfold convert_to_schedule_format, cinepolis_block.
  rewrite (Hget "cinepolis") by reflexivity.
  destruct (PyDict.get tbl "cinepolis") as [[dct|rows]|]; cbn [bind];
    try reflexivity;
    (rewrite (foldM_ext (venue_step (PyDict.set tbl k content)) (venue_step tbl));
     [reflexivity|]);
    intros a v Hv; unfold venue_step;
    rewrite (Hget v) by (apply other_venues_known, Hv); reflexivity.
Qed.

Example unknown_venue_example :
  convert_to_schedule_format
    [("pvr", Films [ row "10:00" "MAHAKAVI" (PStr "Baragur Ramachandrappa")
                         "India" 2025 "Kannada" 121 ]);
     ("openair", Films [ row "19:00" "MEMORIA" (PStr "Apichatpong Weerasethakul")
                             "Thailand" 2021 "English" 136 ])]
    "2026-02-06" 8 "Day 8 - Friday"
  = convert_to_schedule_format
      [("openair", Films [ row "19:00" "MEMORIA" (PStr "Apichatpong Weerasethakul")
                               "Thailand" 2021 "English" 136 ])]
      "2026-02-06" 8 "Day 8 - Friday".
Proof. reflexivity. Qed.

(** The run as a whole, the summary it prints included, is the run on the
    tables without the keys the assembler does not know. *)
Lemma main_on_known_part (tables : list (day_films * string * Z * string))
    (schedule_data : ScheduleStore) (films : list CatalogFilm) :
  main_on (map (fun t => match t with
                         | (tbl, d, n, l) => (known_part tbl, d, n, l)
                         end) tables) schedule_data films
  = main_on tables schedule_data films.
Proof.
  unfold main_on. f_equal. unfold assemble.
  induction tables as [|[[[tbl d] n] l] tables IH]; simpl; [reflexivity|].
  rewrite convert_known_part, IH. reflexivity.
Qed.

End UnknownVenues.

(** ** main of extract-feb-schedule.py: the merge and the summary *)

Section AppendMode.
Import Extract.

Implicit Types (films_db : PyDict.dict CatalogFilm) (acc : Summary).

Lemma counted_0 acc : counted 0 acc acc.
Proof. unfold counted. lia. Qed.

Lemma counted_add (j k : nat) (a b c : Summary) :
  counted j a b -> counted k b c -> counted (j + k) a c.
Proof. unfold counted. lia. Qed.

Lemma count_showing_titled films_db acc (sh : Showing) :
  titled sh = true ->
  exists acc', count_showing films_db acc sh = Ok acc' /\ counted 1 acc acc'.
Proof.
  unfold titled, count_showing. destruct (film sh) as [|s|z|l|d];
    try discriminate. intros _. simpl.
  destruct (find_film_match s films_db); eexists; (split; [reflexivity|]);
    unfold counted; simpl; [|rewrite length_app; simpl]; lia.
Qed.

Lemma count_showings_titled films_db (shs : list Showing) acc :
  forallb titled shs = true ->
  exists acc', foldM (count_showing films_db) shs acc = Ok acc' /\
               counted (List.length shs) acc acc'.
Proof.
  revert acc. induction shs as [|sh shs IH]; simpl; intros acc H.
  - exists acc. split; [reflexivity | apply counted_0].
  - apply andb_prop in H. destruct H as [H1 H2].
    destruct (count_showing_titled films_db acc sh H1) as (a1 & E1 & C1).
    destruct (IH a1 H2) as (a2 & E2 & C2).
    exists a2. rewrite E1. simpl. split; [exact E2|].
    apply (counted_add 1 _ _ _ _ C1 C2).
Qed.

Lemma count_screenings_titled films_db (scs : list Screening) acc :
  forallb (fun sc => forallb titled (showings sc)) scs = true ->
  exists acc',
    foldM (fun acc sc => foldM (count_showing films_db) (showings sc) acc)
          scs acc = Ok acc' /\
    counted (list_sum (map (fun sc => List.length (showings sc)) scs)) acc acc'.
Proof.
  revert acc. induction scs as [|sc scs IH]; simpl; intros acc H.
  - exists acc. split; [reflexivity | apply counted_0].
  - apply andb_prop in H. destruct H as [H1 H2].
    destruct (count_showings_titled films_db _ acc H1) as (a1 & E1 & C1).
    destruct (IH a1 H2) as (a2 & E2 & C2).
    exists a2. rewrite E1. simpl. split; [exact E2|].
    apply (counted_add _ _ _ _ _ C1 C2).
Qed.

(** On days whose showings all have a title the verification loop ends, and
    has counted every showing once. *)
Lemma count_films_titled films_db (new_days : list ScheduleDay) :
  all_titled new_days = true ->
  exists summary,
    count_films films_db new_days = Ok summary /\
    total_showings summary = showing_count new_days /\
    matched summary + List.length (unmatched summary) = total_showings summary.
Proof.
  unfold count_films, all_titled, showing_count.
  assert (G : forall acc,
    forallb (fun day => forallb (fun sc => forallb titled (showings sc))
                                (screenings day)) new_days = true ->
    exists acc',
      foldM (fun acc day =>
               foldM (fun acc sc => foldM (count_showing films_db) (showings sc) acc)
                     (screenings day) acc) new_days acc = Ok acc' /\
      counted (list_sum (map (fun day =>
                 list_sum (map (fun sc => List.length (showings sc))
                               (screenings day))) new_days)) acc acc').
  { induction new_days as [|day ds IH]; simpl; intros acc H.
    - exists acc. split; [reflexivity | apply counted_0].
    - apply andb_prop in H. destruct H as [H1 H2].
      destruct (count_screenings_titled films_db _ acc H1) as (a1 & E1 & C1).
      destruct (IH a1 H2) as (a2 & E2 & C2).
      exists a2. rewrite E1. simpl. split; [exact E2|].
      apply (counted_add _ _ _ _ _ C1 C2). }
  intros H. destruct (G (mkSummary 0 0 []) H) as (sm & E & C1 & C2).
  exists sm. simpl in C1, C2. repeat split; [exact E | exact C1 | lia].
Qed.

(** The loop stops at the first showing without a title. *)
Lemma count_showing_untitled films_db acc (sh : Showing) :
  titled sh = false -> count_showing films_db acc sh = Raise AttributeError.
Proof.
  unfold titled, count_showing. destruct (film sh); try discriminate; reflexivity.
Qed.

Lemma assemble_NEW_DAYS : assemble NEW_DAYS = Ok FEB_DAYS.
Proof. vm_compute. reflexivity. Qed.

Lemma FEB_DAYS_titled : all_titled FEB_DAYS = true.
Proof. vm_compute. reflexivity. Qed.

Lemma FEB_DAYS_dates :
  map date FEB_DAYS = ["2026-02-03"; "2026-02-04"; "2026-02-05"; "2026-02-06"].
Proof. vm_compute. reflexivity. Qed.

Lemma FEB_DAYS_showings : showing_count FEB_DAYS = 173.
Proof. vm_compute. reflexivity. Qed.

(** [main] writes the store for every store read and every catalog. *)
Lemma main_persists (schedule_data : ScheduleStore) (films : list CatalogFilm) :
  exists summary,
    main schedule_data films
      = Ok (add_to_schedule schedule_data FEB_DAYS, summary) /\
    total_showings summary = 173 /\
    matched summary + List.length (unmatched summary) = 173.
Proof.
  destruct (count_films_titled (load_films films) FEB_DAYS FEB_DAYS_titled)
    as (sm & E & C1 & C2).
  exists sm. unfold main, main_on. rewrite assemble_NEW_DAYS. cbn [bind].
  rewrite E. cbn [bind]. rewrite FEB_DAYS_showings in C1.
  repeat split; [exact C1 | lia].
Qed.

Lemma mapM_length {A B} (f : A -> result B) (l : list A) (l' : list B) :
  mapM f l = Ok l' -> List.length l' = List.length l.
Proof.
  revert l'. induction l as [|a l IH]; simpl; intros l' H.
  - inversion H. reflexivity.
  - destruct (f a); simpl in H; [|discriminate].
    destruct (mapM f l); simpl in H; [|discriminate].
    inversion H. simpl. f_equal. apply IH. reflexivity.
Qed.

End AppendMode.

Section AppendModeClaims.
Import Extract.

(** C4, as amended: once the days are assembled, and when every showing in
    them has a title (the director may be missing, as for the panel
    discussions and masterclasses of the tables), the summary is computed
    and the updated store is written, for every prior store and every
    catalog. *)
Theorem summary_never_blocks_titled_days
    (tables : list (day_films * string * Z * string))
    (schedule_data : ScheduleStore) (films : list CatalogFilm)
    (new_days : list ScheduleDay) :
  assemble tables = Ok new_days ->
  all_titled new_days = true ->
  exists summary,
    main_on tables schedule_data films
      = Ok (add_to_schedule schedule_data new_days, summary) /\
    total_showings summary = showing_count new_days /\
    matched summary + List.length (unmatched summary) = total_showings summary.
Proof.
  intros Ha Ht.
  destruct (count_films_titled (load_films films) new_days Ht)
    as (sm & E & C1 & C2).
  exists sm. unfold main_on. rewrite Ha. cbn [bind]. rewrite E. cbn [bind].
  auto.
Qed.

Lemma summary_never_blocks_titled_days_witness :
  assemble NEW_DAYS = Ok FEB_DAYS /\
  all_titled FEB_DAYS = true /\
  exists summary,
    main_on NEW_DAYS (mkStore [("note", PStr "Days 1 to 4")] [])
            [mkFilm "Mahakavi" []; mkFilm "Gondhal" []]
      = Ok (add_to_schedule (mkStore [("note", PStr "Days 1 to 4")] [])
                            FEB_DAYS, summary) /\
    total_showings summary = showing_count FEB_DAYS /\
    matched summary + List.length (unmatched summary) = total_showings summary.
Proof.
  split; [vm_compute; reflexivity|]. split; [vm_compute; reflexivity|].
  apply (summary_never_blocks_titled_days NEW_DAYS
           (mkStore [("note", PStr "Days 1 to 4")] [])
           [mkFilm "Mahakavi" []; mkFilm "Gondhal" []] FEB_DAYS);
    vm_compute; reflexivity.
Defined.

(** C4 fails as stated: with a showing whose title is [None] the days are
    assembled, the matcher is called on [None] and raises, and nothing is
    written. *)
Lemma summary_blocks_on_missing_title :
  let talk := Tuple7 (PStr "17:10") PNone PNone (PStr "India") (PInt 2025)
                     (PStr "English") (PInt 90) in
  let tables := [([("cinepolis", Screens [("6", [talk])])],
                  "2026-02-03", 5%Z, "Day 5 - Tuesday")] in
  assemble tables
    = Ok [ {| date := "2026-02-03"; dayNumber := 5; label := "Day 5 - Tuesday";
              screenings := [ {| venue := "cinepolis"; screen := "6";
                                 showings := [showing_of talk] |} ] |} ] /\
  find_film_match_val PNone (load_films [mkFilm "Mahakavi" []])
    = Raise AttributeError /\
  main_on tables (mkStore [] []) [mkFilm "Mahakavi" []] = Raise AttributeError.
Proof. repeat split. Qed.

(** Line 97 of the script, the fourth row of screen 6 on Feb 3: the row has
    its title, and [None] stands for the director. *)
Example conversation_with_jayant_kaikini :
  exists screens,
    PyDict.get FEB_3_FILMS "cinepolis" = Some (Screens screens) /\
    option_map (fun rows => nth_error rows 3) (PyDict.get screens "6")
      = Some (Some (row "17:10" "A CONVERSATION WITH JAYANT KAIKINI" PNone
                        "India" 2025 "English" 90)).
Proof. eexists. split; reflexivity. Qed.

(** What [add_to_schedule] does to the store. *)
Lemma add_to_schedule_spec (schedule_data : ScheduleStore)
    (new_days : list ScheduleDay) :
  let s := add_to_schedule schedule_data new_days in
  days s = days schedule_data ++ new_days /\
  List.length (days s) = List.length (days schedule_data) + List.length new_days /\
  PyDict.get (schedule s) "lastUpdated" = Some (PStr "2026-01-29T12:00:00.000Z") /\
  PyDict.get (schedule s) "source"
    = Some (PStr "film schedule curve (29th Jan) - 12 pages.pdf") /\
  (forall k, k <> "lastUpdated" -> k <> "source" ->
     PyDict.get (schedule s) k = PyDict.get (schedule schedule_data) k).
Proof.
  unfold add_to_schedule. cbn [days schedule]. repeat split.
  - apply length_app.
  - rewrite get_set_other by discriminate. apply get_set_same.
  - apply get_set_same.
  - intros k H1 H2. rewrite !get_set_other by congruence. reflexivity.
Qed.

(** C5, as amended: the run appends its N new days to the M days of the
    store, behind them and in their order, so that the store holds M + N
    days, and it overwrites [lastUpdated] and [source]; every other entry of
    the metadata block, the note and the venue directory among them, stays
    as it was. *)
Theorem append_mode_days_and_metadata
    (tables : list (day_films * string * Z * string))
    (schedule_data : ScheduleStore) (films : list CatalogFilm)
    (new_days : list ScheduleDay) :
  assemble tables = Ok new_days ->
  all_titled new_days = true ->
  exists s summary,
    main_on tables schedule_data films = Ok (s, summary) /\
    days s = days schedule_data ++ new_days /\
    List.length new_days = List.length tables /\
    List.length (days s)
      = List.length (days schedule_data) + List.length tables /\
    PyDict.get (schedule s) "lastUpdated" = Some (PStr "2026-01-29T12:00:00.000Z") /\
    PyDict.get (schedule s) "source"
      = Some (PStr "film schedule curve (29th Jan) - 12 pages.pdf") /\
    PyDict.get (schedule s) "note" = PyDict.get (schedule schedule_data) "note" /\
    PyDict.get (schedule s) "venues" = PyDict.get (schedule schedule_data) "venues" /\
    (forall k, k <> "lastUpdated" -> k <> "source" ->
       PyDict.get (schedule s) k = PyDict.get (schedule schedule_data) k).
Proof.
  intros Ha Ht.
  destruct (count_films_titled (load_films films) new_days Ht) as (sm & E & _).
  destruct (add_to_schedule_spec schedule_data new_days) as (D & L & U & S & K).
  pose proof (mapM_length _ _ _ Ha) as Hlen.
  exists (add_to_schedule schedule_data new_days), sm.
  split; [unfold main_on; rewrite Ha; cbn [bind]; rewrite E; reflexivity|].
  split; [exact D|]. split; [exact Hlen|].
  split; [rewrite L, Hlen; reflexivity|].
  split; [exact U|]. split; [exact S|].
  split; [apply K; discriminate|]. split; [apply K; discriminate | exact K].
Qed.

Lemma append_mode_days_and_metadata_witness :
  let store := mkStore [("note", PStr "Days 1 to 4"); ("venues", PDict [])] [] in
  assemble NEW_DAYS = Ok FEB_DAYS /\
  all_titled FEB_DAYS = true /\
  exists s summary,
    main_on NEW_DAYS store [] = Ok (s, summary) /\
    days s = days store ++ FEB_DAYS /\
    List.length FEB_DAYS = List.length NEW_DAYS /\
    List.length (days s) = List.length (days store) + List.length NEW_DAYS /\
    PyDict.get (schedule s) "lastUpdated" = Some (PStr "2026-01-29T12:00:00.000Z") /\
    PyDict.get (schedule s) "source"
      = Some (PStr "film schedule curve (29th Jan) - 12 pages.pdf") /\
    PyDict.get (schedule s) "note" = PyDict.get (schedule store) "note" /\
    PyDict.get (schedule s) "venues" = PyDict.get (schedule store) "venues" /\
    (forall k, k <> "lastUpdated" -> k <> "source" ->
       PyDict.get (schedule s) k = PyDict.get (schedule store) k).
Proof.
  intros store.
  split; [vm_compute; reflexivity|]. split; [vm_compute; reflexivity|].
  apply (append_mode_days_and_metadata NEW_DAYS store [] FEB_DAYS);
    vm_compute; reflexivity.
Defined.

(** C5 fails as stated: the run has no note of its own, and the note of
    the store read, here the one a former run left, is still there after
    the merge, beside the new [lastUpdated] and [source]. *)
Lemma append_mode_keeps_note :
  let store :=
    mkStore [ ("lastUpdated", PStr "2026-01-28T09:00:00.000Z");
              ("source", PStr "film schedule (28th Jan).pdf");
              ("note", PStr "Days 1 to 4, checked by hand");
              ("venues", PDict []) ] [] in
  exists s summary,
    main store [] = Ok (s, summary) /\
    schedule s =
      [ ("lastUpdated", PStr "2026-01-29T12:00:00.000Z");
        ("source", PStr "film schedule curve (29th Jan) - 12 pages.pdf");
        ("note", PStr "Days 1 to 4, checked by hand");
        ("venues", PDict []) ] /\
    PyDict.get (schedule s) "note" = PyDict.get (schedule store) "note".
Proof.
  intros store. destruct (main_persists store []) as (sm & E & _).
  exists (add_to_schedule store FEB_DAYS), sm.
  split; [exact E|]. split; reflexivity.
Qed.

(** The run on the four tables of the script. *)
Lemma main_days_and_metadata (schedule_data : ScheduleStore)
    (films : list CatalogFilm) :
  exists s summary,
    main schedule_data films = Ok (s, summary) /\
    days s = days schedule_data ++ FEB_DAYS /\
    List.length (days s) = List.length (days schedule_data) + 4 /\
    PyDict.get (schedule s) "note" = PyDict.get (schedule schedule_data) "note".
Proof.
  destruct (main_persists schedule_data films) as (sm & E & _).
  destruct (add_to_schedule_spec schedule_data FEB_DAYS) as (D & L & _ & _ & K).
  exists (add_to_schedule schedule_data FEB_DAYS), sm.
  split; [exact E|]. split; [exact D|].
  split; [rewrite L, <- (length_map date FEB_DAYS), FEB_DAYS_dates; reflexivity|].
  apply K; discriminate.
Qed.

(** C8: when the store read already has a day of one of the four dates of
    the run, the run ends without an exception and the store written has that
    day at its old place and, behind it, the new day of the same date. *)
Theorem same_date_kept_twice (schedule_data : ScheduleStore)
    (films : list CatalogFilm) (day0 : ScheduleDay) :
  In day0 (days schedule_data) ->
  In (date day0) ["2026-02-03"; "2026-02-04"; "2026-02-05"; "2026-02-06"] ->
  exists s summary i j day1,
    main schedule_data films = Ok (s, summary) /\
    i < j /\
    nth_error (days s) i = Some day0 /\
    nth_error (days s) j = Some day1 /\
    date day1 = date day0 /\
    List.length (days s) = List.length (days schedule_data) + 4.
Proof.
  intros Hin Hdate.
  destruct (main_days_and_metadata schedule_data films)
    as (s & sm & E & D & L & _).
  apply In_nth_error in Hin. destruct Hin as (i & Hi).
  rewrite <- FEB_DAYS_dates in Hdate. apply in_map_iff in Hdate.
  destruct Hdate as (day1 & Hd1 & Hin1).
  apply In_nth_error in Hin1. destruct Hin1 as (j & Hj).
  assert (Hlt : i < List.length (days schedule_data))
    by (apply nth_error_Some; congruence).
  exists s, sm, i, (List.length (days schedule_data) + j), day1.
  split; [exact E|]. split; [lia|].
  split; [rewrite D, nth_error_app1 by exact Hlt; exact Hi|].
  split; [|split; [exact Hd1 | exact L]].
  rewrite D, nth_error_app2 by lia.
  replace (List.length (days schedule_data) + j - List.length (days schedule_data))
    with j by lia.
  exact Hj.
Qed.

Lemma same_date_kept_twice_witness :
  let day0 := {| date := "2026-02-03"; dayNumber := 5;
                 label := "Day 5 - Tuesday"; screenings := [] |} in
  let store := mkStore [("venues", PDict [])] [day0] in
  In day0 (days store) /\
  exists s summary i j day1,
    main store [] = Ok (s, summary) /\
    i < j /\
    nth_error (days s) i = Some day0 /\
    nth_error (days s) j = Some day1 /\
    date day1 = date day0 /\
    List.length (days s) = List.length (days store) + 4.
Proof.
  intros day0 store. split; [left; reflexivity|].
  apply (same_date_kept_twice store [] day0); left; reflexivity.
Defined.

(** The merge itself holds for any days: a day of the store and a new day of
    the same date are both in the merged list. *)
Lemma add_to_schedule_same_date (schedule_data : ScheduleStore)
    (new_days : list ScheduleDay) (day0 day1 : ScheduleDay) :
  In day0 (days schedule_data) -> In day1 new_days ->
  exists i j, i < j /\
    nth_error (days (add_to_schedule schedule_data new_days)) i = Some day0 /\
    nth_error (days (add_to_schedule schedule_data new_days)) j = Some day1.
Proof.
  intros H0 H1. cbn [add_to_schedule days].
  apply In_nth_error in H0. destruct H0 as (i & Hi).
  apply In_nth_error in H1. destruct H1 as (j & Hj).
  assert (Hlt : i < List.length (days schedule_data))
    by (apply nth_error_Some; congruence).
  exists i, (List.length (days schedule_data) + j).
  split; [lia|]. split; [rewrite nth_error_app1 by exact Hlt; exact Hi|].
  rewrite nth_error_app2 by lia.
  replace (List.length (days schedule_data) + j - List.length (days schedule_data))
    with j by lia.
  exact Hj.
Qed.

End AppendModeClaims.

(** ** The catalog dictionaries *)

Section Catalog.
Import PyStr Extract.

Implicit Types (d : PyDict.dict CatalogFilm) (f g : CatalogFilm) (k : string).

Lemma get_In {V} (d : PyDict.dict V) (k : string) (v : V) :
  PyDict.get d k = Some v -> In (k, v) d.
Proof.
  induction d as [|[k1 v1] d IH]; simpl; [discriminate|].
  destruct (String.eqb k1 k) eqn:E.
  - apply String.eqb_eq in E. intros H. inversion H; subst. left. reflexivity.
  - intros H. right. apply IH, H.
Qed.

Lemma In_get {V} (d : PyDict.dict V) (k : string) (v : V) :
  NoDup (PyDict.keys d) -> In (k, v) d -> PyDict.get d k = Some v.
Proof.
  induction d as [|[k1 v1] d IH]; simpl; intros Hnd Hin; [destruct Hin|].
  inversion Hnd as [|? ? Hk1 Hd]; subst.
  destruct Hin as [Heq | Hin].
  - inversion Heq; subst. rewrite String.eqb_refl. reflexivity.
  - destruct (String.eqb k1 k) eqn:E; [|apply IH; assumption].
    apply String.eqb_eq in E. subst k1. exfalso. apply Hk1.
    apply (in_map fst) in Hin. exact Hin.
Qed.

Lemma keys_set {V} (d : PyDict.dict V) (k k' : string) (v : V) :
  In k' (PyDict.keys (PyDict.set d k v)) <-> k' = k \/ In k' (PyDict.keys d).
Proof.
  induction d as [|[k1 v1] d IH]; simpl.
  - split; [intros [<- | []]; auto | intros [-> | []]; auto].
  - destruct (String.eqb k1 k) eqn:E; simpl.
    + apply String.eqb_eq in E. subst k1. split; [auto | intros [-> | H]; auto].
    + rewrite IH. split; [intros [H | [H | H]] | intros [H | [H | H]]]; auto.
Qed.

Lemma NoDup_keys_set {V} (d : PyDict.dict V) (k : string) (v : V) :
  NoDup (PyDict.keys d) -> NoDup (PyDict.keys (PyDict.set d k v)).
Proof.
  induction d as [|[k1 v1] d IH]; simpl; intros H.
  - constructor; [intros [] | constructor].
  - inversion H as [|? ? Hk1 Hd]; subst.
    destruct (String.eqb k1 k) eqn:E; simpl; [constructor; assumption|].
    apply String.eqb_neq in E. constructor; [|apply IH, Hd].
    intros Hin. apply keys_set in Hin. destruct Hin as [-> | Hin]; contradiction.
Qed.

Lemma store_films_other d (films : list CatalogFilm) k :
  (forall g, In g films -> db_key g <> k) ->
  PyDict.get (store_films d films) k = PyDict.get d k.
Proof.
  revert d. induction films as [|g films IH]; simpl; intros d H; [reflexivity|].
  unfold store_films in *. simpl. rewrite IH by (intros g' Hg'; apply H; auto).
  apply get_set_other. intros ->. apply (H g); auto.
Qed.

Lemma store_films_NoDup d (films : list CatalogFilm) :
  NoDup (PyDict.keys d) -> NoDup (PyDict.keys (store_films d films)).
Proof.
  revert d. induction films as [|g films IH]; simpl; intros d H; [exact H|].
  apply IH, NoDup_keys_set, H.
Qed.

Lemma store_films_keys d (films : list CatalogFilm) k :
  In k (PyDict.keys (store_films d films)) ->
  In k (PyDict.keys d) \/ exists g, In g films /\ db_key g = k.
Proof.
  revert d. induction films as [|g films IH]; simpl; intros d H; [auto|].
  apply IH in H. destruct H as [H | (g' & Hg' & <-)].
  - apply keys_set in H. destruct H as [-> | H]; [right; exists g | left]; auto.
  - right. exists g'. auto.
Qed.

(** The film stored last under a key is the one the dictionary holds. *)
Lemma load_films_last (before after : list CatalogFilm) f :
  (forall g, In g after -> db_key g <> db_key f) ->
  PyDict.get (load_films (before ++ f :: after)) (db_key f) = Some f.
Proof.
  intros H. unfold load_films. rewrite fold_left_app. simpl.
  change (PyDict.get (store_films
            (PyDict.set (fold_left (fun d f => PyDict.set d (db_key f) f) before [])
                        (db_key f) f) after) (db_key f) = Some f).
  rewrite store_films_other by exact H. apply get_set_same.
Qed.

End Catalog.

Section CatalogClaims.
Import PyStr Extract.

(** C7, as amended: of two films whose titles have the same key in the
    dictionary of [load_films], the one loaded last, with no later film of
    that key, is the film every lookup of the key returns. *)
Theorem colliding_titles_last_wins
    (before between after : list CatalogFilm) (f1 f2 : CatalogFilm) :
  db_key f1 = db_key f2 ->
  (forall g, In g after -> db_key g <> db_key f2) ->
  PyDict.get (load_films (before ++ f1 :: between ++ f2 :: after)) (db_key f1)
    = Some f2.
Proof.
  intros Hk Hafter. rewrite Hk.
  replace (before ++ f1 :: between ++ f2 :: after)
    with ((before ++ f1 :: between) ++ f2 :: after)
    by (rewrite <- app_assoc; reflexivity).
  apply load_films_last, Hafter.
Qed.

Lemma colliding_titles_last_wins_witness :
  let first := mkFilm "Mahakavi" [("year", PInt 1990)] in
  let other := mkFilm "Gondhal" [] in
  let last := mkFilm " MAHAKAVI" [("year", PInt 2025)] in
  db_key first = db_key last /\
  PyDict.get (load_films ([] ++ first :: [other] ++ last :: [])) (db_key first)
    = Some last.
Proof.
  intros first other last. split; [reflexivity|].
  apply (colliding_titles_last_wins [] [other] [] first last).
  - reflexivity.
  - intros g [].
Defined.

(** C7 fails as stated: two films with one key leave one entry in the
    dictionary, at the place of the first and holding the second, which is
    what the matcher returns; the dictionary of parse-schedule-pdf.py holds
    the second as well. *)
Lemma colliding_titles_first_loses :
  let first := mkFilm "Mahakavi" [("year", PInt 1990)] in
  let last := mkFilm " MAHAKAVI" [("year", PInt 2025)] in
  db_key first = db_key last /\
  load_films [first; mkFilm "Gondhal" []; last]
    = [("MAHAKAVI", last); ("GONDHAL", mkFilm "Gondhal" [])] /\
  PyDict.get (load_films [first; mkFilm "Gondhal" []; last]) "MAHAKAVI"
    = Some last /\
  find_film_match "Mahakavi" (load_films [first; mkFilm "Gondhal" []; last])
    = Some last /\
  ParsePdf.find_film_in_db
    (ParsePdf.film_lookup [first; mkFilm "MAHAKAVI" [("year", PInt 2025)]])
    "Mahakavi" = Some (mkFilm "MAHAKAVI" [("year", PInt 2025)]) /\
  Some last <> Some first.
Proof. repeat split. discriminate. Qed.

(** The key of a film is the normaliser's first two passes on its title. *)
Lemma load_films_In (films : list CatalogFilm) k f :
  In (k, f) (load_films films) ->
  PyDict.get (load_films films) k = Some f /\
  exists g, In g films /\ db_key g = k.
Proof.
  intros Hin. split.
  - apply In_get; [|exact Hin].
    apply (store_films_NoDup [] films). constructor.
  - apply (in_map fst) in Hin.
    destruct (store_films_keys [] films k Hin) as [[] | H]. exact H.
Qed.

(** Through the matcher: when no film of another key normalises to the same
    key, the film loaded last under the key is what [find_film_match]
    returns for every title that normalises to it. *)
Lemma find_film_match_last_wins
    (before after : list CatalogFilm) (f : CatalogFilm) (t : string) :
  (forall g, In g after -> db_key g <> db_key f) ->
  normalize_title (db_key f) = normalize_title t ->
  (forall g, In g (before ++ f :: after) ->
     normalize_title (db_key g) = normalize_title t -> db_key g = db_key f) ->
  find_film_match t (load_films (before ++ f :: after)) = Some f.
Proof.
  intros Hafter Hn Hothers.
  pose proof (load_films_last before after f Hafter) as Hget.
  apply (find_film_match_exact_unique t _ (db_key f) f);
    [apply get_In, Hget | exact Hn |].
  intros k2 f2 Hin Hk2.
  destruct (load_films_In _ _ _ Hin) as (Hget2 & g & Hg & <-).
  rewrite (Hothers g Hg Hk2) in Hget2. congruence.
Qed.

(** The dictionary of parse-schedule-pdf.py: the film stored last under
    an upper-cased title is the one a lookup of that title finds. *)
Lemma film_lookup_last (before after : list CatalogFilm) (f : CatalogFilm) :
  (forall g, In g after ->
     str (upper (chars (title g))) <> str (upper (chars (title f))) /\
     str (sub_punct (upper (chars (title g)))) <> str (upper (chars (title f)))) ->
  PyDict.get (ParsePdf.film_lookup (before ++ f :: after))
             (str (upper (chars (title f)))) = Some f.
Proof.
  intros H. unfold ParsePdf.film_lookup. rewrite fold_left_app. simpl.
  match goal with
  | |- context [fold_left ?step before []] => generalize (fold_left step before [])
  end.
  intros d. set (k := str (upper (chars (title f)))) in *.
  assert (Hd : PyDict.get
                 (PyDict.set (PyDict.set d k f)
                             (str (sub_punct (upper (chars (title f))))) f) k
               = Some f).
  { destruct (String.eqb (str (sub_punct (upper (chars (title f))))) k) eqn:E.
    - apply String.eqb_eq in E. rewrite E. apply get_set_same.
    - apply String.eqb_neq in E. rewrite get_set_other by congruence.
      apply get_set_same. }
  revert Hd. generalize (PyDict.set (PyDict.set d k f)
                           (str (sub_punct (upper (chars (title f))))) f).
  induction after as [|g after IH]; simpl; intros d0 Hd; [exact Hd|].
  apply IH; [intros g' Hg'; apply H; right; exact Hg'|].
  destruct (H g (or_introl eq_refl)) as [H1 H2].
  rewrite !get_set_other by congruence. exact Hd.
Qed.

End CatalogClaims.

(** ** merge-schedule.py: the replace mode *)

Section ReplaceMode.

Lemma fold_left_loaded {A B} (g : A -> option B) (l : list A) (acc : list B) :
  fold_left (fun acc x => match g x with
                          | Some y => acc ++ [y]
                          | None => acc
                          end) l acc
  = acc ++ flat_map (fun x => match g x with
                              | Some y => [y]
                              | None => []
                              end) l.
Proof.
  revert acc. induction l as [|x l IH]; intros acc; simpl.
  - symmetry. apply app_nil_r.
  - rewrite IH. destruct (g x); simpl; [rewrite <- app_assoc|]; reflexivity.
Qed.

Lemma day_file_names :
  map Merge.day_file_name (seq 1 8)
  = [ "day1-jan30.json"; "day2-jan31.json"; "day3-feb01.json";
      "day4-feb02.json"; "day5-feb03.json"; "day6-feb04.json";
      "day7-feb05.json"; "day8-feb06.json" ].
Proof. reflexivity. Qed.

(** The days loaded are the documents of the day files that exist, in the
    order day 1 to day 8. *)
Lemma load_days_in_order (extracted_dir : Merge.directory) :
  Merge.load_days extracted_dir
  = flat_map (fun name => match extracted_dir name with
                          | Some day => [day]
                          | None => []
                          end)
      [ "day1-jan30.json"; "day2-jan31.json"; "day3-feb01.json";
        "day4-feb02.json"; "day5-feb03.json"; "day6-feb04.json";
        "day7-feb05.json"; "day8-feb06.json" ].
Proof.
  unfold Merge.load_days.
  rewrite (fold_left_loaded (fun n => extracted_dir (Merge.day_file_name n))).
  reflexivity.
Qed.

(** C9: the store written in replace mode has as its days the day documents
    loaded, in the order they were loaded, whatever days the prior store had,
    and under [venues] the venue directory of the prior store. *)
Theorem replace_mode_days_and_venues (existing : ScheduleStore)
    (extracted_dir : Merge.directory) (venues : pyval) :
  PyDict.get (schedule existing) "venues" = Some venues ->
  exists s total,
    Merge.main existing extracted_dir = Ok (s, total) /\
    days s = Merge.load_days extracted_dir /\
    days s = flat_map (fun name => match extracted_dir name with
                                   | Some day => [day]
                                   | None => []
                                   end)
               [ "day1-jan30.json"; "day2-jan31.json"; "day3-feb01.json";
                 "day4-feb02.json"; "day5-feb03.json"; "day6-feb04.json";
                 "day7-feb05.json"; "day8-feb06.json" ] /\
    PyDict.get (schedule s) "venues" = Some venues /\
    PyDict.get (schedule s) "venues" = PyDict.get (schedule existing) "venues".
Proof.
  intros Hv. unfold Merge.main. rewrite Hv.
  eexists. eexists. split; [reflexivity|]. cbn [days schedule].
  split; [reflexivity|]. split; [apply load_days_in_order|].
  split; reflexivity.
Qed.

Lemma replace_mode_days_and_venues_witness :
  let day n d := {| date := d; dayNumber := n; label := ""; screenings := [] |} in
  let venues := PDict [("cinepolis", PStr "Cinepolis, Lulu Mall")] in
  let existing := mkStore [("note", PStr "old"); ("venues", venues)]
                          [day 5%Z "2026-02-03"; day 1%Z "2026-01-30"] in
  let extracted_dir name :=
    if String.eqb name "day1-jan30.json" then Some (day 1%Z "2026-01-30")
    else if String.eqb name "day3-feb01.json" then Some (day 3%Z "2026-02-01")
    else None in
  exists s total,
    Merge.main existing extracted_dir = Ok (s, total) /\
    days s = [day 1%Z "2026-01-30"; day 3%Z "2026-02-01"] /\
    PyDict.get (schedule s) "venues" = Some venues.
Proof.
  intros day venues existing extracted_dir.
  destruct (replace_mode_days_and_venues existing extracted_dir venues eq_refl)
    as (s & total & E & _ & D & V & _).
  exists s, total. split; [exact E|]. split; [exact D | exact V].
Defined.

(** Without a venue directory in the prior store the run ends before it
    writes. *)
Example replace_mode_needs_venues :
  Merge.main (mkStore [("note", PStr "old")] []) (fun _ => None)
  = Raise KeyError.
Proof. reflexivity. Qed.

End ReplaceMode.

(* ================================================================= *)
(** * Further properties of the scripts *)

(** ** The normaliser and the matcher *)

Section MatcherFacts.
Import PyStr Extract.

Lemma upper_twice (l : list ascii) : upper (upper l) = upper l.
Proof. apply upper_fixed_id, upper_fixed_upper. Qed.

Lemma upper_drop_space (l : list ascii) :
  upper (drop_space l) = drop_space (upper l).
Proof.
  induction l as [|c r IH]; simpl; [reflexivity|].
  rewrite is_space_upper_char. destruct (is_space c); [exact IH | reflexivity].
Qed.

Lemma upper_strip (l : list ascii) : upper (strip l) = strip (upper l).
Proof.
  unfold strip, upper. rewrite map_rev.
  fold (upper (drop_space (rev (drop_space l)))). rewrite upper_drop_space.
  unfold upper. rewrite map_rev.
  fold (upper (drop_space l)). rewrite upper_drop_space. reflexivity.
Qed.

Lemma strip_twice (l : list ascii) : strip (strip l) = strip l.
Proof. apply trimmed_strip, strip_trimmed. Qed.

Lemma normalize_title_upper (t : string) :
  normalize_title (str (upper (chars t))) = normalize_title t.
Proof. unfold normalize_title. rewrite chars_str, upper_twice. reflexivity. Qed.

Lemma normalize_title_strip (t : string) :
  normalize_title (str (strip (chars t))) = normalize_title t.
Proof.
  unfold normalize_title. rewrite chars_str, upper_strip, strip_twice.
  reflexivity.
Qed.

(** The key of [load_films] normalises as the title does. *)
Lemma normalize_title_db_key (f : CatalogFilm) :
  normalize_title (db_key f) = normalize_title (title f).
Proof.
  unfold db_key, normalize_title.
  rewrite chars_str, upper_strip, upper_twice, strip_twice. reflexivity.
Qed.

(** X1: the matcher does not see the letter case of the title nor the
    whitespace around it: [find_film_match(t.upper(), db)] and
    [find_film_match(t.strip(), db)] are [find_film_match(t, db)]. *)
Theorem find_film_match_ignores_case_and_margin (t : string)
    (db : PyDict.dict CatalogFilm) :
  find_film_match (str (upper (chars t))) db = find_film_match t db /\
  find_film_match (str (strip (chars t))) db = find_film_match t db.
Proof.
  unfold find_film_match.
  rewrite normalize_title_upper, normalize_title_strip. split; reflexivity.
Qed.






Lemma starts_with_refl (l : list ascii) : starts_with l l = true.
Proof.
  induction l as [|c r IH]; simpl; [reflexivity|].
  rewrite Ascii.eqb_refl. exact IH.
Qed.

Lemma contains_refl (l : list ascii) : contains l l = true.
Proof. destruct l; simpl; [reflexivity|]. rewrite Ascii.eqb_refl, starts_with_refl. reflexivity. Qed.

Lemma contains_nil (l : list ascii) : contains l [] = true.
Proof. destruct l; reflexivity. Qed.

Lemma related_exact (n k : string) : normalize_title k = n -> related n k = true.
Proof.
  intros <-. unfold related, str_in. rewrite contains_refl. reflexivity.
Qed.

Lemma direct_match_none_iff (n : string) (db : PyDict.dict CatalogFilm) :
  direct_match n db = None <->
  (forall k f, In (k, f) db -> normalize_title k <> n).
Proof.
  split; [apply direct_match_none|].
  induction db as [|[k1 f1] db IH]; simpl; intros H; [reflexivity|].
  destruct (String.eqb (normalize_title k1) n) eqn:E.
  - apply String.eqb_eq in E. exfalso. apply (H k1 f1); auto.
  - apply IH. intros k f Hin. apply (H k f). right. exact Hin.
Qed.

Lemma partial_match_none_iff (n : string) (db : PyDict.dict CatalogFilm) :
  partial_match n db = None <->
  (forall k f, In (k, f) db -> related n k = false).
Proof.
  induction db as [|[k1 f1] db IH]; simpl.
  - split; [intros _ k f [] | reflexivity].
  - fold (related n k1). destruct (related n k1) eqn:E.
    + split; [discriminate|]. intros H. rewrite (H k1 f1) in E by auto.
      discriminate.
    + rewrite IH. split.
      * intros H k f [Heq | Hin]; [inversion Heq; subst; exact E | eauto].
      * intros H k f Hin. apply (H k f). right. exact Hin.
Qed.

(** The second loop returns the first entry related to the input. *)
Lemma partial_match_first (n : string) (db : PyDict.dict CatalogFilm)
    (pre post : list (string * CatalogFilm)) (k : string) (f : CatalogFilm) :
  db = pre ++ (k, f) :: post ->
  (forall e, In e pre -> related n (fst e) = false) ->
  related n k = true ->
  partial_match n db = Some f.
Proof.
  intros -> Hpre Hk. induction pre as [|[k1 f1] pre IH]; simpl.
  - fold (related n k). rewrite Hk. reflexivity.
  - fold (related n k1).
    pose proof (Hpre (k1, f1) (or_introl eq_refl)) as E. simpl in E.
    rewrite E. apply IH. intros e He. apply Hpre. right. exact He.
Qed.

Lemma partial_match_sound (n : string) (db : PyDict.dict CatalogFilm)
    (f : CatalogFilm) :
  partial_match n db = Some f ->
  exists k, In (k, f) db /\ related n k = true.
Proof.
  induction db as [|[k1 f1] db IH]; simpl; [discriminate|].
  fold (related n k1). destruct (related n k1) eqn:E.
  - intros H. inversion H; subst. exists k1. auto.
  - intros H. destruct (IH H) as (k & Hin & Hk). exists k. auto.
Qed.

End MatcherFacts.

Section MatcherResults.
Import PyStr Extract.

Lemma direct_match_sound (n : string) (db : PyDict.dict CatalogFilm)
    (f : CatalogFilm) :
  direct_match n db = Some f ->
  exists k, In (k, f) db /\ normalize_title k = n.
Proof.
  induction db as [|[k1 f1] db IH]; simpl; [discriminate|].
  destruct (String.eqb (normalize_title k1) n) eqn:E.
  - apply String.eqb_eq in E. intros H. inversion H; subst. exists k1. auto.
  - intros H. destruct (IH H) as (k & Hin & Hk). exists k. auto.
Qed.

(** X3: the matcher reports no match exactly when no key of the catalog,
    normalised, contains the normalised title or is contained in it. *)
Theorem find_film_match_none_iff (t : string) (db : PyDict.dict CatalogFilm) :
  find_film_match t db = None <->
  (forall k f, In (k, f) db -> related (normalize_title t) k = false).
Proof.
  unfold find_film_match. split.
  - destruct (direct_match (normalize_title t) db) eqn:E; [discriminate|].
    intros H. apply partial_match_none_iff, H.
  - intros H.
    assert (E : direct_match (normalize_title t) db = None).
    { apply direct_match_none_iff. intros k f Hin Hk.
      pose proof (H k f Hin) as Hr.
      rewrite (related_exact _ _ Hk) in Hr. discriminate. }
    rewrite E. apply partial_match_none_iff, H.
Qed.

(** X4: a film the matcher returns is the value of a catalog entry whose
    normalised key contains the normalised title or is contained in it. *)
Theorem find_film_match_sound (t : string) (db : PyDict.dict CatalogFilm)
    (f : CatalogFilm) :
  find_film_match t db = Some f ->
  exists k, In (k, f) db /\ related (normalize_title t) k = true.
Proof.
  unfold find_film_match.
  destruct (direct_match (normalize_title t) db) as [f0|] eqn:E.
  - intros H. inversion H; subst.
    destruct (direct_match_sound _ _ _ E) as (k & Hin & Hk).
    exists k. split; [exact Hin | apply related_exact, Hk].
  - apply partial_match_sound.
Qed.

Lemma find_film_match_sound_witness :
  let marble := mkFilm "Man of Marble" [] in
  exists k, In (k, marble) [("MAN OF MARBLE", marble)] /\
            related (normalize_title "MAN, OF, MARBLE (RESTORED)") k = true.
Proof.
  intros marble.
  apply (find_film_match_sound "MAN, OF, MARBLE (RESTORED)"
           [("MAN OF MARBLE", marble)] marble).
  reflexivity.
Defined.

(** X5: without an exact match the matcher returns the first entry of the
    catalog, in its order, that is related to the title by containment. *)
Theorem find_film_match_first_partial (t : string)
    (pre post : list (string * CatalogFilm)) (k : string) (f : CatalogFilm) :
  (forall k' f', In (k', f') (pre ++ (k, f) :: post) ->
     normalize_title k' <> normalize_title t) ->
  (forall e, In e pre -> related (normalize_title t) (fst e) = false) ->
  related (normalize_title t) k = true ->
  find_film_match t (pre ++ (k, f) :: post) = Some f.
Proof.
  intros Hexact Hpre Hk. unfold find_film_match.
  rewrite (proj2 (direct_match_none_iff _ _) Hexact).
  eapply partial_match_first; eauto.
Qed.

Lemma find_film_match_first_partial_witness :
  let moon := mkFilm "Blue Moon" [] in
  let half := mkFilm "Half Moon" [] in
  let city := mkFilm "Sleepless City" [] in
  find_film_match "Moon"
    ([("SLEEPLESS CITY", city)] ++ ("BLUE MOON", moon) :: [("HALF MOON", half)])
  = Some moon.
Proof.
  intros moon half city.
  apply (find_film_match_first_partial "Moon" [("SLEEPLESS CITY", city)]
           [("HALF MOON", half)] "BLUE MOON" moon).
  - intros k' f' [H | [H | [H | []]]]; inversion H; subst; vm_compute;
      discriminate.
  - intros e [<- | []]. reflexivity.
  - reflexivity.
Defined.

(** X6: a title that normalises to the empty key, such as one made of
    punctuation only, is contained in every key: unless some entry has the
    empty key itself, the matcher returns the first film of the catalog. *)
Theorem find_film_match_empty_key (t : string) (k : string) (f : CatalogFilm)
    (rest : list (string * CatalogFilm)) :
  normalize_title t = "" ->
  (forall k' f', In (k', f') ((k, f) :: rest) -> normalize_title k' <> "") ->
  find_film_match t ((k, f) :: rest) = Some f.
Proof.
  intros Ht Hne. unfold find_film_match. rewrite Ht.
  rewrite (proj2 (direct_match_none_iff "" ((k, f) :: rest)) Hne).
  apply (partial_match_first "" _ [] rest k f); [reflexivity | intros e [] |].
  unfold related, str_in. simpl. rewrite contains_nil. reflexivity.
Qed.

Lemma find_film_match_empty_key_witness :
  normalize_title "?!" = "" /\
  find_film_match "?!" [("MAHAKAVI", mkFilm "Mahakavi" []);
                        ("GONDHAL", mkFilm "Gondhal" [])]
  = Some (mkFilm "Mahakavi" []).
Proof.
  split; [reflexivity|].
  apply (find_film_match_empty_key "?!" "MAHAKAVI" (mkFilm "Mahakavi" [])
           [("GONDHAL", mkFilm "Gondhal" [])]).
  - reflexivity.
  - intros k' f' [H | [H | []]]; inversion H; subst; vm_compute; discriminate.
Defined.

Lemma In_set {V} (d : PyDict.dict V) (k k' : string) (v v' : V) :
  In (k', v') (PyDict.set d k v) -> (k' = k /\ v' = v) \/ In (k', v') d.
Proof.
  induction d as [|[k1 v1] d IH]; simpl.
  - intros [H | []]. inversion H. auto.
  - destruct (String.eqb k1 k) eqn:E; simpl.
    + apply String.eqb_eq in E. subst k1.
      intros [H | H]; [inversion H; auto | auto].
    + intros [H | H]; [auto|]. destruct (IH H) as [H' | H']; auto.
Qed.

Lemma length_set_le {V} (d : PyDict.dict V) (k : string) (v : V) :
  List.length (PyDict.set d k v) <= S (List.length d).
Proof.
  induction d as [|[k1 v1] d IH]; simpl; [lia|].
  destruct (String.eqb k1 k); simpl; lia.
Qed.

Lemma In_keys_get {V} (d : PyDict.dict V) (k : string) :
  In k (PyDict.keys d) -> exists v, PyDict.get d k = Some v.
Proof.
  induction d as [|[k1 v1] d IH]; simpl; [intros []|].
  destruct (String.eqb k1 k) eqn:E; [eauto|].
  intros [H | H]; [subst; rewrite String.eqb_refl in E; discriminate | auto].
Qed.

Lemma store_films_In (d : PyDict.dict CatalogFilm) (films : list CatalogFilm)
    (k : string) (v : CatalogFilm) :
  In (k, v) (store_films d films) ->
  In (k, v) d \/ (In v films /\ db_key v = k).
Proof.
  revert d. induction films as [|g films IH]; simpl; intros d H; [auto|].
  destruct (IH _ H) as [H1 | [H1 H2]]; [|auto].
  apply In_set in H1. destruct H1 as [[-> ->] | H1]; auto.
Qed.

Lemma store_films_has_key (d : PyDict.dict CatalogFilm)
    (films : list CatalogFilm) (k : string) :
  In k (PyDict.keys d) \/ (exists g, In g films /\ db_key g = k) ->
  In k (PyDict.keys (store_films d films)).
Proof.
  revert d. induction films as [|g films IH]; simpl; intros d H.
  - destruct H as [H | (g & [] & _)]. exact H.
  - apply IH. destruct H as [H | (g' & [<- | Hg'] & Hk)].
    + left. apply keys_set. auto.
    + left. apply keys_set. auto.
    + right. exists g'. auto.
Qed.

Lemma store_films_length (d : PyDict.dict CatalogFilm)
    (films : list CatalogFilm) :
  List.length (store_films d films) <= List.length d + List.length films.
Proof.
  revert d. induction films as [|g films IH]; simpl; intros d; [lia|].
  specialize (IH (PyDict.set d (db_key g) g)).
  pose proof (length_set_le d (db_key g) g). lia.
Qed.

(** Every film loaded has its key in the dictionary, with a film of that
    key under it. *)
Lemma load_films_lookup (films : list CatalogFilm) (f : CatalogFilm) :
  In f films ->
  exists g, PyDict.get (load_films films) (db_key f) = Some g /\
            db_key g = db_key f /\ In g films.
Proof.
  intros Hin.
  assert (Hk : In (db_key f) (PyDict.keys (load_films films)))
    by (apply (store_films_has_key [] films); right; exists f; auto).
  destruct (In_keys_get _ _ Hk) as (g & Hg). exists g. split; [exact Hg|].
  apply get_In in Hg.
  destruct (store_films_In [] films _ _ Hg) as [[] | [H1 H2]]. auto.
Qed.

(** X7: what [load_films] builds is a dictionary: no key twice, every
    entry a film of the list under that film's own key, every film of the
    list reachable under its key, and no more entries than films. *)
Theorem load_films_invariants (films : list CatalogFilm) :
  NoDup (PyDict.keys (load_films films)) /\
  (forall k v, In (k, v) (load_films films) -> db_key v = k /\ In v films) /\
  (forall f, In f films ->
     exists g, PyDict.get (load_films films) (db_key f) = Some g /\
               db_key g = db_key f /\ In g films) /\
  List.length (load_films films) <= List.length films.
Proof.
  split; [apply (store_films_NoDup [] films); constructor|].
  split.
  - intros k v H. destruct (store_films_In [] films _ _ H) as [[] | [H1 H2]].
    auto.
  - split; [apply load_films_lookup | apply (store_films_length [] films)].
Qed.

(** X8: a film of the catalog file is found by its own title: the matcher
    returns a film of the file whose title has the same normalised key (the
    film itself, unless another film shares that key). *)
Theorem find_film_match_own_title (films : list CatalogFilm) (f : CatalogFilm) :
  In f films ->
  exists g, find_film_match (title f) (load_films films) = Some g /\
            In g films /\
            normalize_title (title g) = normalize_title (title f).
Proof.
  intros Hin. destruct (load_films_lookup films f Hin) as (g0 & Hget & _ & _).
  destruct (direct_match_first (normalize_title (title f)) (load_films films))
    as (pre & k0 & f0 & post & Hdb & Hk0 & _ & Hd).
  { exists (db_key f), g0. split; [apply get_In, Hget|].
    apply normalize_title_db_key. }
  exists f0. unfold find_film_match. rewrite Hd. split; [reflexivity|].
  assert (H0 : In (k0, f0) (load_films films))
    by (rewrite Hdb; apply in_or_app; right; left; reflexivity).
  destruct (store_films_In [] films _ _ H0) as [[] | [H1 H2]].
  split; [exact H1|]. rewrite <- normalize_title_db_key, H2. exact Hk0.
Qed.

Lemma find_film_match_own_title_witness :
  let films := [mkFilm "The President's Cake" []; mkFilm "Mahakavi" []] in
  exists g, find_film_match "The President's Cake" (load_films films) = Some g /\
            In g films /\
            normalize_title (title g) = normalize_title "The President's Cake".
Proof.
  intros films.
  apply (find_film_match_own_title films (mkFilm "The President's Cake" [])).
  left. reflexivity.
Defined.

End MatcherResults.

(** ** The assembler on tables of the script's shape *)

Section AssemblerFacts.
Import Extract.

Lemma venue_loop_well_shaped (tbl : day_films) (vs : list string)
    (acc : list Screening) :
  forallb (fun v => match PyDict.get tbl v with
                    | Some (Screens _) => false
                    | _ => true
                    end) vs = true ->
  foldM (venue_step tbl) vs acc = Ok (acc ++ flat_map (venue_part tbl) vs).
Proof.
  revert acc. induction vs as [|v vs IH]; simpl; intros acc H.
  - rewrite app_nil_r. reflexivity.
  - apply andb_prop in H. destruct H as [Hv Hvs].
    assert (E : venue_step tbl acc v = Ok (acc ++ venue_part tbl v)).
    { unfold venue_step, venue_part.
      destruct (PyDict.get tbl v) as [[dct|[|r rows]]|]; try discriminate;
        simpl; rewrite ?app_nil_r; reflexivity. }
    rewrite E. simpl. rewrite IH by exact Hvs. rewrite <- app_assoc.
    reflexivity.
Qed.

Lemma convert_well_shaped (tbl : day_films) (d : string) (n : Z) (l : string) :
  well_shaped tbl = true ->
  convert_to_schedule_format tbl d n l
  = Ok {| date := d; dayNumber := n; label := l;
          screenings := cinepolis_part tbl
                        ++ flat_map (venue_part tbl) OTHER_VENUES |}.
Proof.
  unfold well_shaped. intros H. apply andb_prop in H. destruct H as [Hc Hv].
  unfold convert_to_schedule_format.
  assert (E : cinepolis_block tbl [] = Ok (cinepolis_part tbl)).
  { unfold cinepolis_part.
    destruct (PyDict.get tbl "cinepolis") as [[dct|rows]|] eqn:G;
      [exact (cinepolis_block_screens tbl dct [] G) | discriminate |].
    unfold cinepolis_block. rewrite G. reflexivity. }
  rewrite E. cbn [bind]. rewrite (venue_loop_well_shaped _ _ _ Hv).
  reflexivity.
Qed.

(** X9: on a table of the script's shape the day carries the date, number
    and label given, and its Screenings stand venue first: the cinepolis
    screens in the order of the table, then rajkumar, banashankari, openair
    and, as screen "Open Forum" of cinepolis, forum, each of the four only
    when it has rows. *)
Theorem screenings_in_venue_order (tbl : day_films) (d : string) (n : Z)
    (l : string) :
  well_shaped tbl = true ->
  exists day,
    convert_to_schedule_format tbl d n l = Ok day /\
    date day = d /\ dayNumber day = n /\ label day = l /\
    screenings day
    = cinepolis_part tbl ++ venue_part tbl "rajkumar"
      ++ venue_part tbl "banashankari" ++ venue_part tbl "openair"
      ++ venue_part tbl "forum".
Proof.
  intros H. eexists. split; [apply (convert_well_shaped _ _ _ _ H)|].
  simpl. rewrite app_nil_r. repeat split.
Qed.

Lemma screenings_in_venue_order_witness :
  let talk := row "11:00" "FIPRESCI AT 100 PANEL DISCUSSION" PNone "India"
                  2025 "English" 120 in
  let river := row "19:00" "RIVERSTONE" (PStr "Lalith Rathnayake") "Sri Lanka"
                   2025 "Sinhala" 120 in
  let mirch := row "10:00" "MIRCH MASALA" (PStr "Ketan Mehta") "India" 1987
                   "Hindi" 128 in
  let tbl := [("forum", Films [talk]); ("openair", Films [river]);
              ("cinepolis", Screens [("1", [mirch])])] in
  exists day,
    convert_to_schedule_format tbl "2026-02-05" 7 "Day 7 - Thursday" = Ok day /\
    map (fun sc => (venue sc, screen sc)) (screenings day)
    = [("cinepolis", "1"); ("openair", "1"); ("cinepolis", "Open Forum")].
Proof.
  intros talk river mirch tbl.
  destruct (screenings_in_venue_order tbl "2026-02-05" 7 "Day 7 - Thursday"
              eq_refl) as (day & E & _ & _ & _ & S).
  exists day. split; [exact E|]. rewrite S. reflexivity.
Defined.

Lemma showings_cinepolis (d : PyDict.dict (list film_data)) :
  flat_map showings (map cinepolis_screening d)
  = map showing_of (flat_map snd d).
Proof.
  induction d as [|[s rows] d IH]; simpl; [reflexivity|].
  rewrite IH, map_app. reflexivity.
Qed.

Lemma showings_venue_part (tbl : day_films) (v : string) :
  match PyDict.get tbl v with
  | Some (Screens _) => false
  | _ => true
  end = true ->
  flat_map showings (venue_part tbl v)
  = map showing_of match PyDict.get tbl v with
                   | Some (Films rows) => rows
                   | _ => []
                   end.
Proof.
  unfold venue_part.
  destruct (PyDict.get tbl v) as [[dct|[|r rows]]|]; try discriminate;
    intros _; simpl; rewrite ?app_nil_r; reflexivity.
Qed.

Lemma showing_count_flat (scs : list Screening) :
  list_sum (map (fun sc => List.length (showings sc)) scs)
  = List.length (flat_map showings scs).
Proof.
  induction scs as [|sc scs IH]; simpl; [reflexivity|].
  rewrite length_app, IH. reflexivity.
Qed.

Lemma showing_count_single (day : ScheduleDay) :
  showing_count [day] = List.length (flat_map showings (screenings day)).
Proof.
  unfold showing_count. simpl. rewrite Nat.add_0_r. apply showing_count_flat.
Qed.

(** X10: on a table of the script's shape the showings of the day, read
    Screening after Screening, are the rows of the table under the five
    venues, each with its seven fields as written and in the order of the
    table; so the day has as many showings as the table has rows. *)
Theorem showings_are_the_rows (tbl : day_films) (d : string) (n : Z)
    (l : string) :
  well_shaped tbl = true ->
  exists day,
    convert_to_schedule_format tbl d n l = Ok day /\
    flat_map showings (screenings day) = map showing_of (table_rows tbl) /\
    showing_count [day] = List.length (table_rows tbl).
Proof.
  intros H. eexists. split; [apply (convert_well_shaped _ _ _ _ H)|].
  cbn [screenings].
  assert (E : flat_map showings
                (cinepolis_part tbl ++ flat_map (venue_part tbl) OTHER_VENUES)
              = map showing_of (table_rows tbl)).
  { unfold well_shaped in H. apply andb_prop in H. destruct H as [_ Hv].
    unfold table_rows. rewrite flat_map_app, map_app. f_equal.
    - unfold cinepolis_part.
      destruct (PyDict.get tbl "cinepolis") as [[dct|rows]|]; try reflexivity.
      apply showings_cinepolis.
    - simpl in Hv. repeat (apply andb_prop in Hv; destruct Hv as [? Hv]).
      simpl. rewrite !app_nil_r, !flat_map_app, !map_app.
      rewrite !showings_venue_part by assumption. reflexivity. }
  split; [exact E|].
  rewrite showing_count_single. cbn [screenings]. rewrite E.
  apply length_map.
Qed.

Lemma showings_are_the_rows_witness :
  exists day,
    convert_to_schedule_format FEB_5_FILMS "2026-02-05" 7 "Day 7 - Thursday"
      = Ok day /\
    flat_map showings (screenings day) = map showing_of (table_rows FEB_5_FILMS) /\
    showing_count [day] = List.length (table_rows FEB_5_FILMS).
Proof.
  apply (showings_are_the_rows FEB_5_FILMS "2026-02-05" 7 "Day 7 - Thursday").
  reflexivity.
Defined.

End AssemblerFacts.

(** ** The summary loop and repeated runs *)

Section SummaryFacts.
Import Extract.

Implicit Types (films_db : PyDict.dict CatalogFilm) (acc : Summary).

Lemma tallied_nil films_db acc : tallied films_db acc [] = acc.
Proof.
  destruct acc. unfold tallied. simpl.
  rewrite !Nat.add_0_r, app_nil_r. reflexivity.
Qed.

Lemma tallied_app films_db acc (ts1 ts2 : list pyval) :
  tallied films_db (tallied films_db acc ts1) ts2
  = tallied films_db acc (ts1 ++ ts2).
Proof.
  unfold tallied. simpl.
  rewrite !filter_app, !length_app, <- !app_assoc, !Nat.add_assoc.
  reflexivity.
Qed.

Lemma count_showing_tallied films_db acc (sh : Showing) :
  titled sh = true ->
  count_showing films_db acc sh = Ok (tallied films_db acc [film sh]).
Proof.
  unfold titled, count_showing, tallied.
  destruct (film sh) as [|s|z|l|d]; try discriminate. intros _. simpl.
  destruct (find_film_match s films_db); simpl;
    rewrite ?Nat.add_0_r, ?app_nil_r, ?Nat.add_1_r; reflexivity.
Qed.

Lemma count_showings_tallied films_db (shs : list Showing) acc :
  forallb titled shs = true ->
  foldM (count_showing films_db) shs acc
  = Ok (tallied films_db acc (map film shs)).
Proof.
  revert acc. induction shs as [|sh shs IH]; simpl; intros acc H.
  - rewrite tallied_nil. reflexivity.
  - apply andb_prop in H. destruct H as [H1 H2].
    rewrite (count_showing_tallied _ _ _ H1). simpl.
    rewrite (IH _ H2), tallied_app. reflexivity.
Qed.

Lemma count_screenings_tallied films_db (scs : list Screening) acc :
  forallb (fun sc => forallb titled (showings sc)) scs = true ->
  foldM (fun acc sc => foldM (count_showing films_db) (showings sc) acc) scs acc
  = Ok (tallied films_db acc (flat_map (fun sc => map film (showings sc)) scs)).
Proof.
  revert acc. induction scs as [|sc scs IH]; simpl; intros acc H.
  - rewrite tallied_nil. reflexivity.
  - apply andb_prop in H. destruct H as [H1 H2].
    rewrite (count_showings_tallied _ _ _ H1). simpl.
    rewrite (IH _ H2), tallied_app. reflexivity.
Qed.

Lemma count_days_tallied films_db (new_days : list ScheduleDay) acc :
  all_titled new_days = true ->
  foldM (fun acc day =>
           foldM (fun acc sc => foldM (count_showing films_db) (showings sc) acc)
                 (screenings day) acc) new_days acc
  = Ok (tallied films_db acc (day_titles new_days)).
Proof.
  unfold all_titled, day_titles. revert acc.
  induction new_days as [|day ds IH]; simpl; intros acc H.
  - rewrite tallied_nil. reflexivity.
  - apply andb_prop in H. destruct H as [H1 H2].
    rewrite (count_screenings_tallied _ _ _ H1). simpl.
    rewrite (IH _ H2), tallied_app. reflexivity.
Qed.

(** X11: when every showing has a title, the summary the loop ends with
    is: as total the number of showings, as matched the number of titles the
    matcher finds a film for, and as unmatched the other titles, in the
    order of the schedule and as often as they are shown. *)
Theorem count_films_summary films_db (new_days : list ScheduleDay) :
  all_titled new_days = true ->
  count_films films_db new_days
  = Ok (mkSummary
          (List.length (day_titles new_days))
          (List.length (filter (in_catalog films_db) (day_titles new_days)))
          (filter (fun t => negb (in_catalog films_db t)) (day_titles new_days))).
Proof.
  intros H. unfold count_films. rewrite (count_days_tallied _ _ _ H).
  reflexivity.
Qed.

Lemma count_films_summary_witness :
  let day := {| date := "2026-02-03"; dayNumber := 5; label := "Day 5 - Tuesday";
                screenings :=
                  [ {| venue := "rajkumar"; screen := "1";
                       showings :=
                         map showing_of
                           [ row "10:30" "TUG OF WAR" (PStr "Amil Shivji")
                                 "Tanzania" 2021 "Swahili" 92;
                             row "14:00" "CHIDAMBARAM" (PStr "Govindan Aravindan")
                                 "India" 1985 "Malayalam" 100 ] |} ] |} in
  count_films (load_films [mkFilm "Tug of War" []]) [day]
  = Ok (mkSummary 2 1 [PStr "CHIDAMBARAM"]).
Proof.
  intros day.
  apply (count_films_summary (load_films [mkFilm "Tug of War" []]) [day]).
  reflexivity.
Defined.

Lemma count_showings_raise films_db (shs : list Showing) acc :
  forallb titled shs = false ->
  foldM (count_showing films_db) shs acc = Raise AttributeError.
Proof.
  revert acc. induction shs as [|sh shs IH]; simpl; intros acc H;
    [discriminate|].
  destruct (titled sh) eqn:E.
  - rewrite (count_showing_tallied _ _ _ E). simpl. apply IH, H.
  - rewrite (count_showing_untitled _ _ _ E). reflexivity.
Qed.

Lemma count_screenings_raise films_db (scs : list Screening) acc :
  forallb (fun sc => forallb titled (showings sc)) scs = false ->
  foldM (fun acc sc => foldM (count_showing films_db) (showings sc) acc) scs acc
  = Raise AttributeError.
Proof.
  revert acc. induction scs as [|sc scs IH]; simpl; intros acc H;
    [discriminate|].
  destruct (forallb titled (showings sc)) eqn:E.
  - rewrite (count_showings_tallied _ _ _ E). simpl. apply IH, H.
  - rewrite (count_showings_raise _ _ _ E). reflexivity.
Qed.

Lemma count_films_raise films_db (new_days : list ScheduleDay) :
  all_titled new_days = false ->
  count_films films_db new_days = Raise AttributeError.
Proof.
  unfold count_films, all_titled. generalize (mkSummary 0 0 []).
  induction new_days as [|day ds IH]; simpl; intros acc H; [discriminate|].
  destruct (forallb (fun sc => forallb titled (showings sc)) (screenings day))
    eqn:E.
  - rewrite (count_screenings_tallied _ _ _ E). simpl. apply IH, H.
  - rewrite (count_screenings_raise _ _ _ E). reflexivity.
Qed.

(** X12: when the days are assembled and some showing has no string under
    ["film"], the run ends in an AttributeError in the summary loop, for
    every store and catalog, and nothing is written. *)
Theorem main_on_untitled_raises
    (tables : list (day_films * string * Z * string))
    (schedule_data : ScheduleStore) (films : list CatalogFilm)
    (new_days : list ScheduleDay) :
  assemble tables = Ok new_days ->
  all_titled new_days = false ->
  main_on tables schedule_data films = Raise AttributeError.
Proof.
  intros Ha Ht. unfold main_on. rewrite Ha. cbn [bind].
  rewrite (count_films_raise _ _ Ht). reflexivity.
Qed.

Lemma main_on_untitled_raises_witness :
  let talk := Tuple7 (PStr "11:00") PNone PNone (PStr "India") (PInt 2025)
                     (PStr "English") (PInt 120) in
  let river := row "19:00" "RIVERSTONE" (PStr "Lalith Rathnayake") "Sri Lanka"
                   2025 "Sinhala" 120 in
  main_on [([("openair", Films [river]); ("forum", Films [talk])],
            "2026-02-05", 7%Z, "Day 7 - Thursday")]
          (mkStore [("venues", PDict [])] []) [mkFilm "Riverstone" []]
  = Raise AttributeError.
Proof.
  intros talk river.
  eapply main_on_untitled_raises; reflexivity.
Defined.

Lemma set_present_value {V} (d : PyDict.dict V) (k : string) (v : V) :
  PyDict.get d k = Some v -> PyDict.set d k v = d.
Proof.
  induction d as [|[k1 v1] d IH]; simpl; [discriminate|].
  destruct (String.eqb k1 k) eqn:E.
  - intros H. inversion H; subst. reflexivity.
  - intros H. rewrite (IH H). reflexivity.
Qed.

(** The two assignments change nothing in a metadata block that holds the
    two values already. *)
Lemma add_to_schedule_meta_twice (schedule_data : ScheduleStore)
    (ds1 ds2 : list ScheduleDay) :
  schedule (add_to_schedule (add_to_schedule schedule_data ds1) ds2)
  = schedule (add_to_schedule schedule_data ds1).
Proof.
  unfold add_to_schedule. cbn [schedule].
  set (m := PyDict.set (PyDict.set (schedule schedule_data) "lastUpdated" _)
                       "source" _).
  assert (H1 : PyDict.set m "lastUpdated" (PStr "2026-01-29T12:00:00.000Z") = m).
  { apply set_present_value. unfold m.
    rewrite get_set_other by discriminate. apply get_set_same. }
  rewrite H1. apply set_present_value. unfold m. apply get_set_same.
Qed.

(** X13: the script run a second time on the store it wrote appends its
    four days once more: the store then holds the prior days, the four days
    and the four days again, under the metadata of the first run. *)
Theorem main_twice (schedule_data : ScheduleStore)
    (films films' : list CatalogFilm) :
  exists s1 summary1 s2 summary2,
    main schedule_data films = Ok (s1, summary1) /\
    main s1 films' = Ok (s2, summary2) /\
    days s2 = days schedule_data ++ FEB_DAYS ++ FEB_DAYS /\
    List.length (days s2) = List.length (days schedule_data) + 8 /\
    map date (skipn (List.length (days schedule_data)) (days s2))
    = [ "2026-02-03"; "2026-02-04"; "2026-02-05"; "2026-02-06";
        "2026-02-03"; "2026-02-04"; "2026-02-05"; "2026-02-06" ] /\
    schedule s2 = schedule s1.
Proof.
  destruct (main_persists schedule_data films) as (sm1 & E1 & _).
  destruct (main_persists (add_to_schedule schedule_data FEB_DAYS) films')
    as (sm2 & E2 & _).
  do 4 eexists. split; [exact E1|]. split; [exact E2|].
  cbn [add_to_schedule days].
  split; [rewrite <- app_assoc; reflexivity|].
  assert (L : List.length FEB_DAYS = 4)
    by (rewrite <- (length_map date FEB_DAYS), FEB_DAYS_dates; reflexivity).
  split; [rewrite !length_app, L; lia|].
  split; [|apply add_to_schedule_meta_twice].
  rewrite <- app_assoc, skipn_app, Nat.sub_diag, skipn_all, skipn_O, app_nil_l.
  rewrite map_app, FEB_DAYS_dates. reflexivity.
Qed.

End SummaryFacts.

(** ** The replace mode and the two scripts one after the other *)

Section ReplaceFacts.

Lemma load_days_files (extracted_dir : Merge.directory) :
  Merge.load_days extracted_dir
  = flat_map (fun name => match extracted_dir name with
                          | Some day => [day]
                          | None => []
                          end) Merge.DAY_FILES.
Proof. apply load_days_in_order. Qed.


Lemma flat_map_length_le {A B} (f : A -> list B) (l : list A) (n : nat) :
  (forall x, List.length (f x) <= n) ->
  List.length (flat_map f l) <= n * List.length l.
Proof.
  intros H. induction l as [|x l IH]; simpl; [lia|].
  rewrite length_app. specialize (H x). lia.
Qed.

Lemma fold_left_showings (scs : list Screening) (t : nat) :
  fold_left (fun total screening => total + List.length (showings screening))
            scs t
  = t + list_sum (map (fun sc => List.length (showings sc)) scs).
Proof.
  revert t. induction scs as [|sc scs IH]; simpl; intros t; [lia|].
  rewrite IH. lia.
Qed.

Lemma count_showings_sum (ds : list ScheduleDay) :
  Merge.count_showings ds = Extract.showing_count ds.
Proof.
  unfold Merge.count_showings, Extract.showing_count.
  assert (G : forall t,
    fold_left (fun total day =>
                 fold_left (fun total screening =>
                              total + List.length (showings screening))
                           (screenings day) total) ds t
    = t + list_sum (map (fun day =>
            list_sum (map (fun sc => List.length (showings sc))
                          (screenings day))) ds)).
  { induction ds as [|day ds IH]; simpl; intros t; [lia|].
    rewrite IH, fold_left_showings. lia. }
  apply (G 0).
Qed.

(** X15: a run of the replace-mode script that finds the venue directory
    writes at most eight days, and the total it prints is the number of
    showings of the days it writes. *)
Theorem merge_main_days_and_total (existing : ScheduleStore)
    (extracted_dir : Merge.directory) (venues : pyval) :
  PyDict.get (schedule existing) "venues" = Some venues ->
  exists s total,
    Merge.main existing extracted_dir = Ok (s, total) /\
    List.length (days s) <= 8 /\
    total = Extract.showing_count (days s).
Proof.
  intros Hv. unfold Merge.main. rewrite Hv.
  eexists. eexists. split; [reflexivity|]. cbn [days]. split.
  - rewrite load_days_files.
    apply (flat_map_length_le _ Merge.DAY_FILES 1).
    intros name. destruct (extracted_dir name); simpl; lia.
  - apply count_showings_sum.
Qed.

Lemma merge_main_days_and_total_witness :
  let mirch := mkShowing (PStr "10:00") (PStr "MIRCH MASALA") (PStr "Ketan Mehta")
                 (PStr "India") (PInt 1987) (PStr "Hindi") (PInt 128) in
  let day7 := {| date := "2026-02-05"; dayNumber := 7; label := "Day 7 - Thursday";
                 screenings := [ {| venue := "cinepolis"; screen := "1";
                                    showings := [mirch; mirch] |} ] |} in
  let existing := mkStore [("venues", PDict [])] [] in
  let extracted_dir name :=
    if String.eqb name "day7-feb05.json" then Some day7 else None in
  exists s total,
    Merge.main existing extracted_dir = Ok (s, total) /\
    List.length (days s) <= 8 /\
    total = Extract.showing_count (days s).
Proof.
  intros mirch day7 existing extracted_dir.
  apply (merge_main_days_and_total existing extracted_dir (PDict [])).
  reflexivity.
Defined.

Lemma flat_map_nil_iff {A B} (f : A -> list B) (l : list A) :
  flat_map f l = [] <-> (forall x, In x l -> f x = []).
Proof.
  induction l as [|x l IH]; simpl.
  - split; [intros _ y [] | reflexivity].
  - split.
    + intros H. apply app_eq_nil in H. destruct H as [H1 H2].
      intros y [<- | Hy]; [exact H1 | apply IH; assumption].
    + intros H. rewrite (H x) by auto. simpl. apply IH.
      intros y Hy. apply H. auto.
Qed.

(** X16: the store the replace-mode script writes has no day at all exactly
    when none of the eight day files exists; the script does not stop for
    that, and the days of the prior store are gone. *)
Theorem merge_main_no_files (existing : ScheduleStore)
    (extracted_dir : Merge.directory) (venues : pyval) :
  PyDict.get (schedule existing) "venues" = Some venues ->
  exists s total,
    Merge.main existing extracted_dir = Ok (s, total) /\
    (days s = [] <->
     forall name, In name Merge.DAY_FILES -> extracted_dir name = None).
Proof.
  intros Hv. unfold Merge.main. rewrite Hv.
  eexists. eexists. split; [reflexivity|]. cbn [days].
  rewrite load_days_files, flat_map_nil_iff. split.
  - intros H name Hin. specialize (H name Hin).
    destruct (extracted_dir name); [discriminate | reflexivity].
  - intros H name Hin. rewrite (H name Hin). reflexivity.
Qed.

Lemma merge_main_no_files_witness :
  let day0 := {| date := "2026-01-30"; dayNumber := 1; label := "Day 1";
                 screenings := [] |} in
  let existing := mkStore [("venues", PDict [])] [day0] in
  exists s total,
    Merge.main existing (fun _ => None) = Ok (s, total) /\
    (days s = [] <->
     forall name, In name Merge.DAY_FILES -> (fun _ : string => @None ScheduleDay) name = None).
Proof.
  intros day0 existing.
  apply (merge_main_no_files existing (fun _ => None) (PDict [])).
  reflexivity.
Defined.

(** X17: the replace-mode script and then the append-mode script: the
    store holds the loaded days followed by the four days of the append
    script, and a metadata block with the [lastUpdated] and [source] of the
    append script, the note of the replace script and the venue directory
    of the store read first. *)
Theorem replace_then_append (existing : ScheduleStore)
    (extracted_dir : Merge.directory) (films : list CatalogFilm)
    (venues : pyval) :
  PyDict.get (schedule existing) "venues" = Some venues ->
  exists s1 total s2 summary,
    Merge.main existing extracted_dir = Ok (s1, total) /\
    Extract.main s1 films = Ok (s2, summary) /\
    days s2 = Merge.load_days extracted_dir ++ Extract.FEB_DAYS /\
    schedule s2
    = [ ("lastUpdated", PStr "2026-01-29T12:00:00.000Z");
        ("source", PStr "film schedule curve (29th Jan) - 12 pages.pdf");
        ("note", PStr "Schedule extracted directly from PDF images. Verified against official schedule.");
        ("venues", venues) ].
Proof.
  intros Hv. unfold Merge.main. rewrite Hv.
  eexists. eexists.
  match goal with
  | |- exists s2 summary, Ok (?s1, _) = _ /\ _ =>
      destruct (main_persists s1 films) as (sm & E & _)
  end.
  eexists. eexists. split; [reflexivity|]. split; [exact E|].
  split; reflexivity.
Qed.

Lemma replace_then_append_witness :
  let existing := mkStore [("note", PStr "old"); ("venues", PDict [])] [] in
  exists s1 total s2 summary,
    Merge.main existing (fun _ => None) = Ok (s1, total) /\
    Extract.main s1 [] = Ok (s2, summary) /\
    days s2 = Merge.load_days (fun _ => None) ++ Extract.FEB_DAYS /\
    schedule s2
    = [ ("lastUpdated", PStr "2026-01-29T12:00:00.000Z");
        ("source", PStr "film schedule curve (29th Jan) - 12 pages.pdf");
        ("note", PStr "Schedule extracted directly from PDF images. Verified against official schedule.");
        ("venues", PDict []) ].
Proof.
  intros existing.
  apply (replace_then_append existing (fun _ => None) [] (PDict [])).
  reflexivity.
Defined.

(** X18: the append-mode script and then the replace-mode script: the
    second run does what it would have done on the store the first run
    read; the four appended days and the metadata of the first run leave no
    trace. *)
Theorem append_then_replace (schedule_data : ScheduleStore)
    (films : list CatalogFilm) (extracted_dir : Merge.directory) :
  exists s1 summary,
    Extract.main schedule_data films = Ok (s1, summary) /\
    Merge.main s1 extracted_dir = Merge.main schedule_data extracted_dir.
Proof.
  destruct (main_persists schedule_data films) as (sm & E & _).
  eexists. eexists. split; [exact E|].
  destruct (add_to_schedule_spec schedule_data Extract.FEB_DAYS)
    as (_ & _ & _ & _ & K).
  unfold Merge.main. rewrite K by discriminate. reflexivity.
Qed.

End ReplaceFacts.

(** ** parse-schedule-pdf.py: dates and the title lookup *)

Section ParsePdfFacts.
Import PyStr ParsePdf.














End ParsePdfFacts.

Section TitleLookupFacts.
Import PyStr ParsePdf.

(** X22: in parse-schedule-pdf.py a film whose title has no whitespace
    around it, and whose upper-cased title no film after it in the file has
    as its upper-cased or cleaned title, is found by its own title. *)
Theorem find_film_in_db_own_title (before after : list CatalogFilm)
    (f : CatalogFilm) :
  strip (chars (title f)) = chars (title f) ->
  (forall g, In g after ->
     str (upper (chars (title g))) <> str (upper (chars (title f))) /\
     str (sub_punct (upper (chars (title g)))) <> str (upper (chars (title f)))) ->
  find_film_in_db (film_lookup (before ++ f :: after)) (title f) = Some f.
Proof.
  intros Hs Hafter. unfold find_film_in_db.
  rewrite <- upper_strip, Hs, (film_lookup_last before after f Hafter).
  reflexivity.
Qed.

Lemma find_film_in_db_own_title_witness :
  find_film_in_db
    (film_lookup ([mkFilm "Mahakavi" []] ++ mkFilm "Oslo: A Tail of Promise" []
                  :: [mkFilm "Gondhal" []]))
    "Oslo: A Tail of Promise"
  = Some (mkFilm "Oslo: A Tail of Promise" []).
Proof.
  apply (find_film_in_db_own_title [mkFilm "Mahakavi" []]
           [mkFilm "Gondhal" []] (mkFilm "Oslo: A Tail of Promise" [])).
  - reflexivity.
  - intros g [<- | []]. split; vm_compute; discriminate.
Defined.

Lemma starts_with_app (b c : list ascii) : starts_with b (b ++ c) = true.
Proof.
  induction b as [|x b IH]; simpl; [reflexivity|].
  rewrite Ascii.eqb_refl. exact IH.
Qed.

Lemma contains_middle (a b c : list ascii) : contains (a ++ b ++ c) b = true.
Proof.
  induction a as [|x a IH].
  - simpl. destruct (b ++ c) eqn:E; simpl; rewrite <- E, starts_with_app;
      reflexivity.
  - simpl. rewrite IH. apply orb_true_r.
Qed.

Lemma drop_space_suffix (l : list ascii) :
  exists a, l = a ++ drop_space l /\ Forall (fun c => is_space c = true) a.
Proof.
  induction l as [|c l (a & Ha & Hs)]; simpl.
  - exists []. split; [reflexivity | constructor].
  - destruct (is_space c) eqn:E.
    + exists (c :: a). split; [simpl; rewrite <- Ha; reflexivity|].
      constructor; assumption.
    + exists []. split; [reflexivity | constructor].
Qed.

(** A text is its stripped form between two blocks of whitespace. *)
Lemma strip_middle (l : list ascii) :
  exists a c, l = a ++ strip l ++ c.
Proof.
  destruct (drop_space_suffix l) as (a & Ha & _).
  destruct (drop_space_suffix (rev (drop_space l))) as (c & Hc & _).
  exists a, (rev c). unfold strip.
  apply (f_equal (@rev ascii)) in Hc.
  rewrite rev_involutive, rev_app_distr in Hc.
  rewrite <- Hc. exact Ha.
Qed.

Lemma contains_sub_punct_strip (l : list ascii) :
  contains (sub_punct l) (sub_punct (strip l)) = true.
Proof.
  destruct (strip_middle l) as (a & c & H).
  rewrite H at 1. unfold sub_punct. rewrite !filter_app.
  apply contains_middle.
Qed.

Lemma film_lookup_from_In (d : PyDict.dict CatalogFilm)
    (films : list CatalogFilm) (k : string) (v : CatalogFilm) :
  In (k, v)
     (fold_left
        (fun d f =>
           let d := PyDict.set d (str (upper (chars (title f)))) f in
           let clean_title := str (sub_punct (upper (chars (title f)))) in
           PyDict.set d clean_title f) films d) ->
  In (k, v) d \/ In v films.
Proof.
  revert d. induction films as [|g films IH]; simpl; intros d H; [auto|].
  destruct (IH _ H) as [H1 | H1]; [|auto].
  apply In_set in H1. destruct H1 as [[_ ->] | H1]; [auto|].
  apply In_set in H1. destruct H1 as [[_ ->] | H1]; auto.
Qed.

Lemma film_lookup_from_keys (d : PyDict.dict CatalogFilm)
    (films : list CatalogFilm) (k : string) :
  In k (PyDict.keys d)
  \/ (exists g, In g films /\ str (sub_punct (upper (chars (title g)))) = k) ->
  In k (PyDict.keys
          (fold_left
             (fun d f =>
                let d := PyDict.set d (str (upper (chars (title f)))) f in
                let clean_title := str (sub_punct (upper (chars (title f)))) in
                PyDict.set d clean_title f) films d)).
Proof.
  revert d. induction films as [|g films IH]; simpl; intros d H.
  - destruct H as [H | (g & [] & _)]. exact H.
  - apply IH. destruct H as [H | (g' & [<- | Hg'] & Hk)].
    + left. apply keys_set. right. apply keys_set. auto.
    + left. apply keys_set. auto.
    + right. exists g'. auto.
Qed.

Lemma partial_match_finds (clean : string) (lookup : PyDict.dict CatalogFilm)
    (k : string) (v : CatalogFilm) :
  In (k, v) lookup ->
  str_in clean k || str_in k clean = true ->
  exists k' g, partial_match clean lookup = Some g /\ In (k', g) lookup.
Proof.
  induction lookup as [|[k1 v1] lookup IH]; simpl; intros Hin Hk;
    [destruct Hin|].
  destruct (str_in clean k1 || str_in k1 clean) eqn:E.
  - exists k1, v1. auto.
  - destruct Hin as [Heq | Hin]; [inversion Heq; subst; congruence|].
    destruct (IH Hin Hk) as (k' & g & H1 & H2). exists k', g. auto.
Qed.

(** X23: in parse-schedule-pdf.py every film of the catalog file is taken
    as in the database when its own title is looked up: [find_film_in_db]
    returns a film of the file, by one of the two lookups or, at the least,
    by containment in the cleaned title stored for it. *)
Theorem find_film_in_db_catalog_title (films : list CatalogFilm)
    (f : CatalogFilm) :
  In f films ->
  exists g, find_film_in_db (film_lookup films) (title f) = Some g /\
            In g films.
Proof.
  intros Hin. unfold find_film_in_db.
  set (lookup := film_lookup films).
  assert (Hval : forall k v, In (k, v) lookup -> In v films).
  { intros k v H. destruct (film_lookup_from_In [] films k v H) as [[] | H'].
    exact H'. }
  destruct (PyDict.get lookup (str (strip (upper (chars (title f))))))
    as [g|] eqn:E1.
  { exists g. split; [reflexivity|]. apply get_In in E1. eauto. }
  destruct (PyDict.get lookup
              (str (sub_punct (chars (str (strip (upper (chars (title f)))))))))
    as [g|] eqn:E2.
  { exists g. split; [reflexivity|]. apply get_In in E2. eauto. }
  assert (Hk : In (str (sub_punct (upper (chars (title f)))))
                  (PyDict.keys lookup)).
  { apply (film_lookup_from_keys [] films). right. exists f. auto. }
  apply In_keys_get in Hk. destruct Hk as (v & Hv). apply get_In in Hv.
  destruct (partial_match_finds
              (str (sub_punct (chars (str (strip (upper (chars (title f))))))))
              lookup _ v Hv) as (k' & g & H1 & H2).
  { unfold str_in. rewrite !chars_str, contains_sub_punct_strip. reflexivity. }
  exists g. split; [exact H1 | eauto].
Qed.

Lemma find_film_in_db_catalog_title_witness :
  let films := [mkFilm " Wind, Talk to Me " []; mkFilm "Mahakavi" []] in
  exists g, find_film_in_db (film_lookup films) " Wind, Talk to Me " = Some g /\
            In g films.
Proof.
  intros films.
  apply (find_film_in_db_catalog_title films (mkFilm " Wind, Talk to Me " [])).
  left. reflexivity.
Defined.

End TitleLookupFacts.
